(** * GitHub MCP server: tool handlers over the forge API

    A shallow embedding of [src/index.ts].  Every tool handler of the server
    is an [async] function that issues [octokit.request] calls one after the
    other and finally returns a content envelope.  Here a handler is a term
    of an inductive type [Promise] whose nodes are the requests it awaits;
    running it against a forge (a state machine answering requests) gives
    the envelope together with the list of requests issued, in order. *)

From Stdlib Require Import ZArith List String Ascii Bool Lia.
From Stdlib Require Import DecimalString.
Import ListNotations.
Local Open Scope string_scope.
Local Open Scope Z_scope.
Set Warnings "-register-all".

(** ** JavaScript strings and numbers

    A string is a sequence of characters of type [ascii]; the literals of the
    source that are not ASCII (the emoji) are written as their UTF-8 bytes.
    Numbers are the integers the forge hands out (pull-request numbers, line
    counts), printed in decimal as a template literal does. *)

Definition nl : string := String "010"%char EmptyString.
Definition dquote : string := String "034"%char EmptyString.
Definition backslash : string := String "092"%char EmptyString.
Definition backtick3 : string :=
  String "096"%char (String "096"%char (String "096"%char EmptyString)).

(** U+2705, U+26A0 U+FE0F and U+1F5D1 U+FE0F. *)
Definition check_mark : string :=
  String "226"%char (String "156"%char (String "133"%char EmptyString)).
Definition warning_sign : string :=
  String "226"%char (String "154"%char (String "160"%char
    (String "239"%char (String "184"%char (String "143"%char EmptyString))))).
Definition wastebasket : string :=
  String "240"%char (String "159"%char (String "151"%char (String "145"%char
    (String "239"%char (String "184"%char (String "143"%char EmptyString)))))).

Definition string_of_number (n : Z) : string :=
  NilZero.string_of_int (Z.to_int n).

(** Truthiness, as used by [if (x)], [!x], [x ? a : b] and [x || d]. *)
Definition truthy_string (s : string) : bool :=
  match s with EmptyString => false | String _ _ => true end.

Definition truthy_number (n : Z) : bool := negb (n =? 0).

Definition str_length (s : string) : Z := Z.of_nat (String.length s).

Definition toUpperCase_char (c : ascii) : ascii :=
  let n := nat_of_ascii c in
  if (andb (Nat.leb 97 n) (Nat.leb n 122)) then ascii_of_nat (n - 32) else c.

Definition charAt0 (s : string) : string :=
  match s with EmptyString => EmptyString | String c _ => String c EmptyString end.

Definition slice1 (s : string) : string :=
  match s with EmptyString => EmptyString | String _ s' => s' end.

Definition toUpperCase (s : string) : string :=
  string_of_list_ascii (List.map toUpperCase_char (list_ascii_of_string s)).

(** [s.substring(0, n) + (s.length > n ? '...' : '')] *)
Definition preview (n : nat) (s : string) : string :=
  substring 0 n s ++ (if str_length s >? Z.of_nat n then "..." else EmptyString).

(** ** [Buffer.from(s).toString('base64')] *)

Definition base64_alphabet : string :=
  "ABCDEFGHIJKLMNOPQRSTUVWXYZabcdefghijklmnopqrstuvwxyz0123456789+/".

Definition base64_digit (n : nat) : ascii :=
  match String.get n base64_alphabet with Some c => c | None => "="%char end.

Fixpoint base64_bytes (fuel : nat) (l : list nat) : string :=
  match fuel with
  | O => EmptyString
  | S fuel' =>
      match l with
      | [] => EmptyString
      | [a] =>
          String (base64_digit (a / 4))
            (String (base64_digit ((a mod 4) * 16)) "==")
      | [a; b] =>
          String (base64_digit (a / 4))
            (String (base64_digit ((a mod 4) * 16 + b / 16))
               (String (base64_digit ((b mod 16) * 4)) "="))
      | a :: b :: c :: rest =>
          String (base64_digit (a / 4))
            (String (base64_digit ((a mod 4) * 16 + b / 16))
               (String (base64_digit ((b mod 16) * 4 + c / 64))
                  (String (base64_digit (c mod 64))
                     (base64_bytes fuel' rest))))
      end%nat
  end.

Definition base64 (s : string) : string :=
  let bytes := List.map nat_of_ascii (list_ascii_of_string s) in
  base64_bytes (S (List.length bytes)) bytes.

(** ** [JSON.stringify(value, null, 2)] *)

Inductive JSON : Type :=
| JUndefined
| JNull
| JNumber (n : Z)
| JString (s : string)
| JArray (items : list JSON)
| JObject (props : list (string * JSON)).

Definition hex_digit (n : nat) : ascii :=
  match String.get n "0123456789abcdef" with Some c => c | None => "0"%char end.

Definition escape_char (c : ascii) : string :=
  let n := nat_of_ascii c in
  if Nat.eqb n 34 then backslash ++ dquote
  else if Nat.eqb n 92 then backslash ++ backslash
  else if Nat.eqb n 8 then backslash ++ "b"
  else if Nat.eqb n 9 then backslash ++ "t"
  else if Nat.eqb n 10 then backslash ++ "n"
  else if Nat.eqb n 12 then backslash ++ "f"
  else if Nat.eqb n 13 then backslash ++ "r"
  else if Nat.ltb n 32 then
    backslash ++ "u00"
      ++ String (hex_digit (n / 16)) (String (hex_digit (n mod 16)) EmptyString)
  else String c EmptyString.

Fixpoint escape_string (s : string) : string :=
  match s with
  | EmptyString => EmptyString
  | String c s' => escape_char c ++ escape_string s'
  end.

Definition QuoteJSONString (s : string) : string :=
  dquote ++ escape_string s ++ dquote.

Definition gap : string := "  ".

(** [None] stands for [undefined]: such a property is left out of an object
    and printed as [null] inside an array. *)
Fixpoint SerializeJSONProperty (indent : string) (v : JSON) : option string :=
  match v with
  | JUndefined => None
  | JNull => Some "null"
  | JNumber n => Some (string_of_number n)
  | JString s => Some (QuoteJSONString s)
  | JArray items =>
      let stepback := indent in
      let indent := indent ++ gap in
      let partial :=
        List.map (fun x => match SerializeJSONProperty indent x with
                           | Some s => s
                           | None => "null"
                           end) items in
      match partial with
      | [] => Some "[]"
      | _ => Some ("[" ++ nl ++ indent
                     ++ String.concat ("," ++ nl ++ indent) partial
                     ++ nl ++ stepback ++ "]")
      end
  | JObject props =>
      let stepback := indent in
      let indent := indent ++ gap in
      let partial :=
        List.flat_map (fun kv => match SerializeJSONProperty indent (snd kv) with
                                 | Some s => [QuoteJSONString (fst kv) ++ ": " ++ s]
                                 | None => []
                                 end) props in
      match partial with
      | [] => Some "{}"
      | _ => Some ("{" ++ nl ++ indent
                     ++ String.concat ("," ++ nl ++ indent) partial
                     ++ nl ++ stepback ++ "}")
      end
  end.

Definition JSON_stringify (v : JSON) : string :=
  match SerializeJSONProperty EmptyString v with
  | Some s => s
  | None => "undefined"
  end.


(** ** Data the forge returns

    Only the fields the handlers read.  A field the forge may leave [null]
    is an [option]. *)

Record User := { login : string }.

Module Pull.
Record data := {
  number : Z;
  title : string;
  body : option string;
  html_url : string;
  state : string;
  created_at : string;
  user : option User;
  mergeable : option bool
}.
End Pull.

Module PullFile.
Record data := {
  filename : string;
  status : string;
  additions : Z;
  deletions : Z;
  changes : Z;
  patch : option string
}.
End PullFile.

Module Repo.
Record data := {
  owner : User;
  name : string;
  default_branch : string;
  html_url : string
}.
End Repo.

Record GitObject := { sha : string }.
Record GitRef := { object : GitObject }.

(** What a failed [octokit.request] throws: an error with a message and,
    when the forge answered, the HTTP status. *)
Module Error.
Record data := { status : option Z; message : string }.
End Error.

(** ** Requests *)

Module CreateParams.
Record data := {
  name : string;
  description : string;
  private : bool;
  auto_init : bool
}.
End CreateParams.

Module TreeItem.
Record data := {
  path : string;
  mode : string;
  type : string;
  sha : string
}.
End TreeItem.

(** One constructor per route string passed to [octokit.request], with the
    parameters of the call. *)
Inductive Request : Type :=
| GET_pulls (owner repo state : string)
| GET_pull (owner repo : string) (pull_number : Z)
| GET_pull_files (owner repo : string) (pull_number : Z)
| POST_issue_comment (owner repo : string) (issue_number : Z) (body : string)
| POST_requested_reviewers (owner repo : string) (pull_number : Z)
    (reviewers : list string)
| PUT_pull_merge (owner repo : string) (pull_number : Z)
    (commit_title commit_message : option string) (merge_method : string)
| PATCH_issue (owner repo : string) (issue_number : Z) (state : string)
| POST_user_repos (params : CreateParams.data)
| POST_org_repos (org : string) (params : CreateParams.data)
| GET_git_ref (owner repo ref : string)
| POST_git_blobs (owner repo content encoding : string)
| GET_git_tree (owner repo tree_sha recursive : string)
| POST_git_trees (owner repo base_tree : string) (tree : list TreeItem.data)
| POST_git_commits (owner repo message tree : string) (parents : list string)
| PATCH_git_ref (owner repo ref sha : string)
| GET_repo (owner repo : string)
| DELETE_repo (owner repo : string).

(** The type of [response.data] for each route. *)
Definition Data (r : Request) : Type :=
  match r with
  | GET_pulls _ _ _ => list Pull.data
  | GET_pull _ _ _ => Pull.data
  | GET_pull_files _ _ _ => list PullFile.data
  | POST_user_repos _ | POST_org_repos _ _ => Repo.data
  | GET_git_ref _ _ _ => GitRef
  | POST_git_blobs _ _ _ _ | GET_git_tree _ _ _ _
  | POST_git_trees _ _ _ _ | POST_git_commits _ _ _ _ _ => GitObject
  | _ => unit
  end.

(** The steps of the workflows, for statements about the order of calls. *)
Inductive Step : Type :=
| ListPulls | FetchPull | FetchPullFiles | CreateComment | RequestReviewers
| Merge | UpdateState | CreateRepo | FetchRef | CreateBlob | FetchTree
| CreateTree | CreateCommit | UpdateRef | ProbeRepo | DeleteRepo.

Definition step_of (r : Request) : Step :=
  match r with
  | GET_pulls _ _ _ => ListPulls
  | GET_pull _ _ _ => FetchPull
  | GET_pull_files _ _ _ => FetchPullFiles
  | POST_issue_comment _ _ _ _ => CreateComment
  | POST_requested_reviewers _ _ _ _ => RequestReviewers
  | PUT_pull_merge _ _ _ _ _ _ => Merge
  | PATCH_issue _ _ _ _ => UpdateState
  | POST_user_repos _ | POST_org_repos _ _ => CreateRepo
  | GET_git_ref _ _ _ => FetchRef
  | POST_git_blobs _ _ _ _ => CreateBlob
  | GET_git_tree _ _ _ _ => FetchTree
  | POST_git_trees _ _ _ _ => CreateTree
  | POST_git_commits _ _ _ _ _ => CreateCommit
  | PATCH_git_ref _ _ _ _ => UpdateRef
  | GET_repo _ _ => ProbeRepo
  | DELETE_repo _ _ => DeleteRepo
  end.

Definition Step_eqb (a b : Step) : bool :=
  match a, b with
  | ListPulls, ListPulls | FetchPull, FetchPull
  | FetchPullFiles, FetchPullFiles | CreateComment, CreateComment
  | RequestReviewers, RequestReviewers | Merge, Merge
  | UpdateState, UpdateState | CreateRepo, CreateRepo | FetchRef, FetchRef
  | CreateBlob, CreateBlob | FetchTree, FetchTree | CreateTree, CreateTree
  | CreateCommit, CreateCommit | UpdateRef, UpdateRef
  | ProbeRepo, ProbeRepo | DeleteRepo, DeleteRepo => true
  | _, _ => false
  end.

(** How many calls of a given step a run issued. *)
Definition count_step (s : Step) (calls : list Request) : nat :=
  List.length (List.filter (fun r => Step_eqb (step_of r) s) calls).

(** ** Asynchronous computations

    [Await r k] issues the request [r] and suspends until the forge answers;
    [k] continues with the data or with the error thrown.  [Throw] is a
    rejected promise / an exception in flight. *)
Inductive Promise (A : Type) : Type :=
| Return (a : A)
| Throw (e : Error.data)
| Await (r : Request) (k : Data r + Error.data -> Promise A).

Arguments Return {A} a.
Arguments Throw {A} e.
Arguments Await {A} r k.

Fixpoint bind {A B : Type} (p : Promise A) (f : A -> Promise B) : Promise B :=
  match p with
  | Return a => f a
  | Throw e => Throw e
  | Await r k => Await r (fun ans => bind (k ans) f)
  end.

(** [try { p } catch (error) { h error }] *)
Fixpoint try_catch {A : Type} (p : Promise A) (h : Error.data -> Promise A)
  : Promise A :=
  match p with
  | Return a => Return a
  | Throw e => h e
  | Await r k => Await r (fun ans => try_catch (k ans) h)
  end.

(** [await octokit.request(route, params)]: the data, or the error thrown. *)
Definition octokit_request (r : Request) : Promise (Data r) :=
  Await r (fun ans => match ans with
                      | inl d => Return d
                      | inr e => Throw e
                      end).

Declare Scope promise_scope.
Delimit Scope promise_scope with promise.
Notation "x <- p ;; q" := (bind p (fun x => q))
  (at level 100, p at next level, right associativity) : promise_scope.
Notation "p ;;; q" := (bind p (fun _ => q))
  (at level 100, right associativity) : promise_scope.
Local Open Scope promise_scope.

(** ** Running a handler against a forge

    The forge is a state machine: in a world [w] it answers a request with
    data or with an error and moves to a next world.  A run records the
    requests in the order they were issued. *)
Definition Forge (World : Type) : Type :=
  World -> forall r : Request, (Data r + Error.data) * World.

Record Run (World A : Type) := {
  outcome : A + Error.data;
  calls : list Request;
  world : World
}.
Arguments outcome {World A} _.
Arguments calls {World A} _.
Arguments world {World A} _.

Fixpoint run {World A : Type} (forge : Forge World) (p : Promise A) (w : World)
  : Run World A :=
  match p with
  | Return a => {| outcome := inl a; calls := []; world := w |}
  | Throw e => {| outcome := inr e; calls := []; world := w |}
  | Await r k =>
      let (ans, w') := forge w r in
      let rest := run forge (k ans) w' in
      {| outcome := outcome rest; calls := r :: calls rest; world := world rest |}
  end.

(** ** The response envelope *)

Record ContentBlock := { type : string; text : string }.

(** [isError] is [None] when the handler leaves the property out. *)
Record CallToolResult := {
  content : list ContentBlock;
  isError : option bool
}.

Definition flagged_as_error (r : CallToolResult) : bool :=
  match isError r with Some b => b | None => false end.

Definition text_block (t : string) : ContentBlock :=
  {| type := "text"; text := t |}.

(** ** Tool handlers *)

Definition or_default (s : option string) (d : string) : string :=
  match s with
  | Some s' => if truthy_string s' then s' else d
  | None => d
  end.

(** [pr.user?.login] *)
Definition user_login (u : option User) : JSON :=
  match u with Some u' => JString (login u') | None => JUndefined end.

Definition pr_entry (pr : Pull.data) : JSON :=
  JObject [ ("number", JNumber (Pull.number pr));
            ("title", JString (Pull.title pr));
            ("url", JString (Pull.html_url pr));
            ("state", JString (Pull.state pr));
            ("created_at", JString (Pull.created_at pr));
            ("user", user_login (Pull.user pr)) ].

Definition pr_details (pr : Pull.data) : JSON :=
  JObject [ ("number", JNumber (Pull.number pr));
            ("title", JString (Pull.title pr));
            ("body", JString (or_default (Pull.body pr) "No description provided"));
            ("url", JString (Pull.html_url pr));
            ("state", JString (Pull.state pr));
            ("created_at", JString (Pull.created_at pr));
            ("user", user_login (Pull.user pr)) ].

Definition discuss_pr (owner repo : string) (prNumber : option Z)
    (query : option string) : Promise CallToolResult :=
  try_catch
    match prNumber with
    | None =>
        response <- octokit_request (GET_pulls owner repo "open") ;;
        let prs := List.map pr_entry response in
        Return {| content :=
                    [ text_block ("Open PRs for " ++ owner ++ "/" ++ repo ++ ":"
                                    ++ nl ++ nl ++ JSON_stringify (JArray prs)) ];
                  isError := None |}
    | Some n =>
        pr <- octokit_request (GET_pull owner repo n) ;;
        let prDetails := pr_details pr in
        let contentText :=
          match query with
          | Some q =>
              if truthy_string q
              then "Discussion query for PR #" ++ string_of_number n ++ ": " ++ q
                     ++ nl ++ nl ++ "Details:" ++ nl ++ JSON_stringify prDetails
              else "Details for PR #" ++ string_of_number n ++ ":" ++ nl
                     ++ JSON_stringify prDetails
          | None =>
              "Details for PR #" ++ string_of_number n ++ ":" ++ nl
                ++ JSON_stringify prDetails
          end in
        Return {| content := [ text_block contentText ]; isError := None |}
    end
    (fun error =>
       Return {| content :=
                   [ text_block
                       ("Error fetching PR "
                          ++ match prNumber with
                             | Some n => if truthy_number n
                                         then "#" ++ string_of_number n
                                         else "s"
                             | None => "s"
                             end
                          ++ ": " ++ Error.message error) ];
                 isError := Some true |}).

(** [z.enum(["open", "closed", "all"])] *)
Inductive StateFilter : Type := open | closed | all.

Definition state_name (s : StateFilter) : string :=
  match s with open => "open" | closed => "closed" | all => "all" end.

Definition list_prs (owner repo : string) (state : StateFilter)
  : Promise CallToolResult :=
  let state := state_name state in
  try_catch
    (response <- octokit_request (GET_pulls owner repo state) ;;
     let prs := List.map pr_entry response in
     Return {| content :=
                 [ text_block (toUpperCase (charAt0 state) ++ slice1 state
                                 ++ " PRs for " ++ owner ++ "/" ++ repo ++ ":"
                                 ++ nl ++ nl ++ JSON_stringify (JArray prs)) ];
               isError := None |})
    (fun error =>
       Return {| content :=
                   [ text_block ("Error fetching PRs: " ++ Error.message error) ];
                 isError := Some true |}).

Definition comment_on_pr (owner repo : string) (prNumber : Z) (comment : string)
  : Promise CallToolResult :=
  try_catch
    (octokit_request (POST_issue_comment owner repo prNumber comment) ;;;
     Return {| content :=
                 [ text_block (check_mark ++ " Comment posted on PR #"
                                 ++ string_of_number prNumber ++ ": " ++ dquote
                                 ++ preview 50 comment ++ dquote) ];
               isError := None |})
    (fun error =>
       Return {| content :=
                   [ text_block ("Error posting comment: " ++ Error.message error) ];
                 isError := Some true |}).

Definition request_reviewers (owner repo : string) (prNumber : Z)
    (reviewers : list string) : Promise CallToolResult :=
  try_catch
    (octokit_request (POST_requested_reviewers owner repo prNumber reviewers) ;;;
     Return {| content :=
                 [ text_block (check_mark ++ " Requested "
                                 ++ string_of_number (Z.of_nat (List.length reviewers))
                                 ++ " reviewer(s) for PR #"
                                 ++ string_of_number prNumber ++ ": "
                                 ++ String.concat ", " reviewers) ];
               isError := None |})
    (fun error =>
       Return {| content :=
                   [ text_block ("Error requesting reviewers: "
                                   ++ Error.message error) ];
                 isError := Some true |}).

(** [!prResponse.data.mergeable]: true for [false] and for [null]. *)
Definition not_mergeable (pr : Pull.data) : bool :=
  match Pull.mergeable pr with Some true => false | _ => true end.

Definition merge_pr (owner repo : string) (prNumber : Z)
    (commitTitle commitMessage : option string) : Promise CallToolResult :=
  try_catch
    (prResponse <- octokit_request (GET_pull owner repo prNumber) ;;
     if not_mergeable prResponse then
       Return {| content :=
                   [ text_block (warning_sign ++ " PR #" ++ string_of_number prNumber
                                   ++ " is not mergeable. It may have conflicts that need to be resolved.") ];
                 isError := None |}
     else
       octokit_request
         (PUT_pull_merge owner repo prNumber commitTitle commitMessage "merge") ;;;
       Return {| content :=
                   [ text_block (check_mark ++ " Successfully merged PR #"
                                   ++ string_of_number prNumber ++ "!") ];
                 isError := None |})
    (fun error =>
       Return {| content :=
                   [ text_block ("Error merging PR: " ++ Error.message error) ];
                 isError := Some true |}).

Module FileChange.
Record data := {
  filename : string;
  status : string;
  additions : Z;
  deletions : Z;
  changes : Z;
  patch : option string
}.
End FileChange.

Module Summary.
Record data := {
  title : string;
  description : string;
  changedFiles : Z;
  totalAdditions : Z;
  totalDeletions : Z;
  files : list FileChange.data
}.
End Summary.

(** [array.reduce(f, init)] *)
Definition reduce {A B : Type} (f : B -> A -> B) (init : B) (l : list A) : B :=
  List.fold_left f l init.

Definition file_change (file : PullFile.data) : FileChange.data :=
  {| FileChange.filename := PullFile.filename file;
     FileChange.status := PullFile.status file;
     FileChange.additions := PullFile.additions file;
     FileChange.deletions := PullFile.deletions file;
     FileChange.changes := PullFile.changes file;
     FileChange.patch := option_map (substring 0 500) (PullFile.patch file) |}.

Definition summary_of (pr : Pull.data) (files : list PullFile.data) : Summary.data :=
  let fileChanges := List.map file_change files in
  {| Summary.title := Pull.title pr;
     Summary.description := or_default (Pull.body pr) "No description provided";
     Summary.changedFiles := Z.of_nat (List.length files);
     Summary.totalAdditions := reduce (fun sum file => sum + PullFile.additions file) 0 files;
     Summary.totalDeletions := reduce (fun sum file => sum + PullFile.deletions file) 0 files;
     Summary.files := fileChanges |}.

Definition file_section (file : PullFile.data) : string :=
  "- **" ++ PullFile.filename file ++ "** (" ++ PullFile.status file ++ "): +"
    ++ string_of_number (PullFile.additions file) ++ " -"
    ++ string_of_number (PullFile.deletions file) ++ nl
    ++ match PullFile.patch file with
       | Some p =>
           if truthy_string p
           then backtick3 ++ "diff" ++ nl ++ preview 300 p ++ nl ++ backtick3 ++ nl
           else EmptyString
       | None => EmptyString
       end.

Definition summary_text (prNumber : Z) (summary : Summary.data)
    (files : list PullFile.data) : string :=
  "# PR #" ++ string_of_number prNumber ++ " Summary" ++ nl ++ nl
    ++ "**Title**: " ++ Summary.title summary ++ nl ++ nl
    ++ "**Description**:" ++ nl ++ Summary.description summary ++ nl ++ nl
    ++ "**Changes**: " ++ string_of_number (Summary.changedFiles summary)
    ++ " files changed, "
    ++ string_of_number (Summary.totalAdditions summary) ++ " additions, "
    ++ string_of_number (Summary.totalDeletions summary) ++ " deletions" ++ nl ++ nl
    ++ "## Modified Files" ++ nl ++ nl
    ++ String.concat (nl ++ nl) (List.map file_section files).

Definition summarize_pr (owner repo : string) (prNumber : Z)
  : Promise CallToolResult :=
  try_catch
    (pr <- octokit_request (GET_pull owner repo prNumber) ;;
     files <- octokit_request (GET_pull_files owner repo prNumber) ;;
     let summary := summary_of pr files in
     Return {| content := [ text_block (summary_text prNumber summary files) ];
               isError := None |})
    (fun error =>
       Return {| content :=
                   [ text_block ("Error summarizing PR: " ++ Error.message error) ];
                 isError := Some true |}).

Definition close_pr (owner repo : string) (prNumber : Z) (reason : option string)
  : Promise CallToolResult :=
  try_catch
    (prResponse <- octokit_request (GET_pull owner repo prNumber) ;;
     if negb (String.eqb (Pull.state prResponse) "open") then
       Return {| content :=
                   [ text_block ("PR #" ++ string_of_number prNumber
                                   ++ " is already " ++ Pull.state prResponse
                                   ++ ". No action taken.") ];
                 isError := None |}
     else
       octokit_request (PATCH_issue owner repo prNumber "closed") ;;;
       (match reason with
        | Some r =>
            if truthy_string r then
              octokit_request
                (POST_issue_comment owner repo prNumber ("Closing this PR: " ++ r)) ;;;
              Return tt
            else Return tt
        | None => Return tt
        end) ;;;
       Return {| content :=
                   [ text_block
                       (check_mark ++ " PR #" ++ string_of_number prNumber
                          ++ " has been closed"
                          ++ match reason with
                             | Some r => if truthy_string r
                                         then " with reason: " ++ r
                                         else EmptyString
                             | None => EmptyString
                             end
                          ++ ".") ];
                 isError := None |})
    (fun error =>
       Return {| content :=
                   [ text_block ("Error closing PR: " ++ Error.message error) ];
                 isError := Some true |}).

(** *** create-repository *)

Module RepositoryFile.
Record data := { path : string; content : string }.
End RepositoryFile.

(** [files.map(file => octokit.request(...))]: every request is issued, in
    the order of the list, before any settlement is looked at. *)
Fixpoint request_each {A T : Type} (mk : A -> Request)
    (data : forall a, Data (mk a) -> T) (l : list A)
  : Promise (list (T + Error.data)) :=
  match l with
  | [] => Return []
  | a :: rest =>
      Await (mk a) (fun ans =>
        settled <- request_each mk data rest ;;
        Return (match ans with
                | inl d => inl (data a d)
                | inr e => inr e
                end :: settled))
  end.

(** [await Promise.all(promises)]: the values when all are fulfilled, else
    a rejection.  The rejection surfaced is the one of the first promise of
    the list that is rejected; the order in time in which the forge settles
    them is not part of this model. *)
Fixpoint all_fulfilled {T : Type} (settled : list (T + Error.data))
  : list T + Error.data :=
  match settled with
  | [] => inl []
  | inl d :: rest =>
      match all_fulfilled rest with
      | inl ds => inl (d :: ds)
      | inr e => inr e
      end
  | inr e :: _ => inr e
  end.

Definition Promise_all {T : Type} (promises : Promise (list (T + Error.data)))
  : Promise (list T) :=
  settled <- promises ;;
  match all_fulfilled settled with
  | inl ds => Return ds
  | inr e => Throw e
  end.

Definition no_files (files : option (list RepositoryFile.data)) : bool :=
  match files with
  | None => true
  | Some l => Nat.eqb (List.length l) 0
  end.

Definition visibility (isPrivate : bool) : string :=
  if isPrivate then "Private" else "Public".

Definition created_text (name : string) (isPrivate : bool) (repoData : Repo.data)
  : string :=
  check_mark ++ " Repository created successfully!" ++ nl ++ nl
    ++ "Name: " ++ name ++ nl
    ++ "Owner: " ++ login (Repo.owner repoData) ++ nl
    ++ "Visibility: " ++ visibility isPrivate ++ nl
    ++ "URL: " ++ Repo.html_url repoData.

(** The user endpoint if [owner] is not given ([!owner]), the organisation
    endpoint if it is. *)
Definition create_repo (owner : option string) (createParams : CreateParams.data)
  : Promise Repo.data :=
  match owner with
  | Some org =>
      if negb (truthy_string org)
      then octokit_request (POST_user_repos createParams)
      else octokit_request (POST_org_repos org createParams)
  | None => octokit_request (POST_user_repos createParams)
  end.

(** The block run when files were provided: fetch the head of the default
    branch, create the blobs, fetch the tree, create tree and commit, and
    move the branch. *)
Definition add_initial_files (name : string) (isPrivate : bool)
    (repoData : Repo.data) (files : list RepositoryFile.data)
  : Promise CallToolResult :=
  let repoOwner := login (Repo.owner repoData) in
  let repo := Repo.name repoData in
  let defaultBranch := Repo.default_branch repoData in
  refResponse <-
    octokit_request (GET_git_ref repoOwner repo ("heads/" ++ defaultBranch)) ;;
  let latestCommitSha := sha (object refResponse) in
  blobResults <-
    Promise_all
      (request_each
         (fun file => POST_git_blobs repoOwner repo
                        (base64 (RepositoryFile.content file)) "base64")
         (fun _ d => d) files) ;;
  treeResponse <-
    octokit_request (GET_git_tree repoOwner repo latestCommitSha "true") ;;
  let treeItems :=
    List.map (fun fb => {| TreeItem.path := RepositoryFile.path (fst fb);
                           TreeItem.mode := "100644";
                           TreeItem.type := "blob";
                           TreeItem.sha := sha (snd fb) |})
             (List.combine files blobResults) in
  newTree <-
    octokit_request
      (POST_git_trees repoOwner repo (sha treeResponse) treeItems) ;;
  commitResponse <-
    octokit_request
      (POST_git_commits repoOwner repo "Add initial files" (sha newTree)
         [latestCommitSha]) ;;
  octokit_request
    (PATCH_git_ref repoOwner repo ("heads/" ++ defaultBranch)
       (sha commitResponse)) ;;;
  let fileList :=
    String.concat nl (List.map (fun f => "- " ++ RepositoryFile.path f) files) in
  Return {| content :=
              [ text_block (created_text name isPrivate repoData
                              ++ nl ++ nl ++ "Added "
                              ++ string_of_number (Z.of_nat (List.length files))
                              ++ " files:" ++ nl ++ fileList) ];
            isError := None |}.

Definition create_repository (owner : option string) (name : string)
    (description : option string) (isPrivate : bool)
    (files : option (list RepositoryFile.data)) (initializeWithReadme : bool)
  : Promise CallToolResult :=
  try_catch
    (let createParams :=
       {| CreateParams.name := name;
          CreateParams.description := or_default description EmptyString;
          CreateParams.private := isPrivate;
          CreateParams.auto_init := initializeWithReadme |} in
     repoData <- create_repo owner createParams ;;
     if andb (no_files files) initializeWithReadme then
       Return {| content :=
                   [ text_block (created_text name isPrivate repoData
                                   ++ nl ++ nl ++ "Initialized with README.md") ];
                 isError := None |}
     else
       match files with
       | Some ((_ :: _) as files) =>
           add_initial_files name isPrivate repoData files
       | _ =>
           Return {| content := [ text_block (created_text name isPrivate repoData) ];
                     isError := None |}
       end)
    (fun error =>
       Return {| content :=
                   [ text_block ("Error creating repository: "
                                   ++ Error.message error) ];
                 isError := Some true |}).

(** *** delete-repository *)

(** [error.status === n] *)
Definition status_is (error : Error.data) (n : Z) : bool :=
  match Error.status error with Some s => s =? n | None => false end.

Definition delete_repository (owner repo : string) (confirmation : bool)
  : Promise CallToolResult :=
  try_catch
    (if negb confirmation then
       Return {| content :=
                   [ text_block (warning_sign ++ " Repository deletion aborted. The 'confirmation' parameter must be set to true to proceed with deletion.") ];
                 isError := None |}
     else
       (* the inner try/catch: [Some] is a [return] out of the handler *)
       probe <-
         try_catch
           (octokit_request (GET_repo owner repo) ;;; Return None)
           (fun error =>
              if status_is error 404 then
                Return (Some {| content :=
                                  [ text_block (warning_sign ++ " Repository "
                                                  ++ owner ++ "/" ++ repo
                                                  ++ " does not exist or you don't have access to it.") ];
                                isError := Some true |})
              else Throw error) ;;
       match probe with
       | Some early => Return early
       | None =>
           octokit_request (DELETE_repo owner repo) ;;;
           Return {| content :=
                       [ text_block (wastebasket ++ " Repository " ++ owner ++ "/"
                                       ++ repo ++ " has been successfully deleted.") ];
                     isError := None |}
       end)
    (fun error =>
       let errorMessage :=
         if status_is error 403 then
           "You don't have permission to delete the repository " ++ owner ++ "/"
             ++ repo ++ ". Make sure your GitHub token has the necessary permissions."
         else if status_is error 404 then
           "Repository " ++ owner ++ "/" ++ repo
             ++ " not found. It may have already been deleted or you might not have access to it."
         else if status_is error 401 then
           "Authentication failed. Check your GitHub token."
         else "Error deleting repository: " ++ Error.message error in
       Return {| content := [ text_block errorMessage ]; isError := Some true |}).

(** ** The tool surface: a tool name with its validated arguments *)

Inductive ToolCall : Type :=
| Discuss_pr (owner repo : string) (prNumber : option Z) (query : option string)
| List_prs (owner repo : string) (state : StateFilter)
| Comment_on_pr (owner repo : string) (prNumber : Z) (comment : string)
| Request_reviewers (owner repo : string) (prNumber : Z) (reviewers : list string)
| Merge_pr (owner repo : string) (prNumber : Z)
    (commitTitle commitMessage : option string)
| Summarize_pr (owner repo : string) (prNumber : Z)
| Close_pr (owner repo : string) (prNumber : Z) (reason : option string)
| Create_repository (owner : option string) (name : string)
    (description : option string) (isPrivate : bool)
    (files : option (list RepositoryFile.data)) (initializeWithReadme : bool)
| Delete_repository (owner repo : string) (confirmation : bool).

Definition handler (c : ToolCall) : Promise CallToolResult :=
  match c with
  | Discuss_pr o r n q => discuss_pr o r n q
  | List_prs o r s => list_prs o r s
  | Comment_on_pr o r n c => comment_on_pr o r n c
  | Request_reviewers o r n rs => request_reviewers o r n rs
  | Merge_pr o r n t m => merge_pr o r n t m
  | Summarize_pr o r n => summarize_pr o r n
  | Close_pr o r n reason => close_pr o r n reason
  | Create_repository o n d p fs i => create_repository o n d p fs i
  | Delete_repository o r c => delete_repository o r c
  end.

(** ** Vocabulary of the statements *)

(** [s.endsWith(suffix)] *)
Definition ends_with (suffix s : string) : bool :=
  let n := String.length s in
  let m := String.length suffix in
  if Nat.leb m n then String.eqb (substring (n - m) m s) suffix else false.

(** The sum of a list of counts, by recursion on the list. *)
Fixpoint sum_of (l : list Z) : Z :=
  match l with
  | [] => 0
  | x :: rest => x + sum_of rest
  end.

Definition prefix_of {A : Type} (l full : list A) : Prop :=
  exists rest, full = (l ++ rest)%list.

(** The calls of a complete create-repository workflow over [n] files. *)
Definition create_workflow (n : nat) : list Step :=
  ([CreateRepo; FetchRef] ++ List.repeat CreateBlob n
     ++ [FetchTree; CreateTree; CreateCommit; UpdateRef])%list.

(** Every path of [p] ends in a [Return] whose value satisfies [P]; no
    rejection escapes. *)
Fixpoint settles {A : Type} (P : A -> Prop) (p : Promise A) : Prop :=
  match p with
  | Return a => P a
  | Throw _ => False
  | Await r k => forall ans, settles P (k ans)
  end.

(** Every path of [p] that ends in a [Return] satisfies [P]; rejections are
    left to an enclosing [catch]. *)
Fixpoint returns {A : Type} (P : A -> Prop) (p : Promise A) : Prop :=
  match p with
  | Return a => P a
  | Throw _ => True
  | Await r k => forall ans, returns P (k ans)
  end.

(** ** Concrete forges

    Forges without memory, for evaluating the handlers: one that fulfils
    every request from fixed data, and one that rejects the requests picked
    by a filter. *)

Record Fixture := {
  fx_pulls : list Pull.data;
  fx_pull : Pull.data;
  fx_files : list PullFile.data;
  fx_repo : Repo.data;
  fx_object : GitObject
}.

Definition fulfil (fx : Fixture) (r : Request) : Data r :=
  match r as r' return Data r' with
  | GET_pulls _ _ _ => fx_pulls fx
  | GET_pull _ _ _ => fx_pull fx
  | GET_pull_files _ _ _ => fx_files fx
  | POST_user_repos _ | POST_org_repos _ _ => fx_repo fx
  | GET_git_ref _ _ _ => {| object := fx_object fx |}
  | POST_git_blobs _ _ _ _ | GET_git_tree _ _ _ _
  | POST_git_trees _ _ _ _ | POST_git_commits _ _ _ _ _ => fx_object fx
  | _ => tt
  end.

Definition fulfilling (fx : Fixture) : Forge unit :=
  fun w r => (inl (fulfil fx r), w).

Definition rejecting (fails : Request -> option Error.data) (fx : Fixture)
  : Forge unit :=
  fun w r =>
    match fails r with
    | Some e => (inr e, w)
    | None => (inl (fulfil fx r), w)
    end.

Definition pr7 (state : string) (mergeable : option bool) : Pull.data :=
  {| Pull.number := 7;
     Pull.title := "Fix typo";
     Pull.body := None;
     Pull.html_url := "https://github.com/o/r/pull/7";
     Pull.state := state;
     Pull.created_at := "2024-01-01T00:00:00Z";
     Pull.user := Some {| login := "alice" |};
     Pull.mergeable := mergeable |}.

Definition changed (filename : string) (additions deletions : Z) : PullFile.data :=
  {| PullFile.filename := filename;
     PullFile.status := "modified";
     PullFile.additions := additions;
     PullFile.deletions := deletions;
     PullFile.changes := additions + deletions;
     PullFile.patch := None |}.

Definition fixture (pulls : list Pull.data) (pr : Pull.data)
    (files : list PullFile.data) : Fixture :=
  {| fx_pulls := pulls;
     fx_pull := pr;
     fx_files := files;
     fx_repo := {| Repo.owner := {| login := "o" |};
                   Repo.name := "r";
                   Repo.default_branch := "main";
                   Repo.html_url := "https://github.com/o/r" |};
     fx_object := {| sha := "abc123" |} |}.

Definition not_found : Error.data :=
  {| Error.status := Some 404; Error.message := "Not Found" |}.

Definition is_probe (r : Request) : bool :=
  match r with GET_repo _ _ => true | _ => false end.

Definition is_list (r : Request) : bool :=
  match r with GET_pulls _ _ _ => true | _ => false end.

Definition fail_when (p : Request -> bool) (e : Error.data) (r : Request)
  : option Error.data :=
  if p r then Some e else None.

Definition text_of (r : CallToolResult + Error.data) : list string :=
  match r with
  | inl env => List.map text (content env)
  | inr _ => []
  end.


(** ** Envelopes and forges named in the statements *)

Definition deletion_aborted : CallToolResult :=
  {| content :=
       [ text_block (warning_sign ++ " Repository deletion aborted. The 'confirmation' parameter must be set to true to proceed with deletion.") ];
     isError := None |}.

Definition does_not_exist (owner repo : string) : string :=
  warning_sign ++ " Repository " ++ owner ++ "/" ++ repo
    ++ " does not exist or you don't have access to it.".

Definition forge_without_repo : Forge unit :=
  rejecting (fail_when is_probe not_found) (fixture [] (pr7 "open" None) []).

Definition heading (state : StateFilter) (owner repo : string) : string :=
  toUpperCase (charAt0 (state_name state)) ++ slice1 (state_name state)
    ++ " PRs for " ++ owner ++ "/" ++ repo ++ ":".

Definition forge_without_pulls : Forge unit :=
  fulfilling (fixture [] (pr7 "open" None) []).

Definition not_mergeable_text (prNumber : Z) : string :=
  warning_sign ++ " PR #" ++ string_of_number prNumber
    ++ " is not mergeable. It may have conflicts that need to be resolved.".

Definition forge_with_pr (state : string) (mergeable : option bool) : Forge unit :=
  fulfilling (fixture [] (pr7 state mergeable) []).

Definition already_text (prNumber : Z) (pr : Pull.data) : string :=
  "PR #" ++ string_of_number prNumber ++ " is already " ++ Pull.state pr
    ++ ". No action taken.".

Definition one_block (env : CallToolResult) : Prop :=
  List.length (content env) = 1%nat.

(** The calls of the block that adds [n] files. *)
Definition files_workflow (n : nat) : list Step :=
  (FetchRef :: List.repeat CreateBlob n
     ++ [FetchTree; CreateTree; CreateCommit; UpdateRef])%list.

(** A forge that fulfils every request. *)
Definition always_fulfils {World : Type} (forge : Forge World) : Prop :=
  forall w r, exists d w', forge w r = (inl d, w').

(** The request that creates the repository. *)
Definition create_call (owner : option string) (createParams : CreateParams.data)
  : Request :=
  match owner with
  | Some org =>
      if negb (truthy_string org)
      then POST_user_repos createParams
      else POST_org_repos org createParams
  | None => POST_user_repos createParams
  end.

Definition create_params (name : string) (description : option string)
    (isPrivate initializeWithReadme : bool) : CreateParams.data :=
  {| CreateParams.name := name;
     CreateParams.description := or_default description EmptyString;
     CreateParams.private := isPrivate;
     CreateParams.auto_init := initializeWithReadme |}.

(** The forge's answer to the creation request, at the type of its data. *)
Definition create_answer {World : Type} (forge : Forge World) (w : World)
    (owner : option string) (createParams : CreateParams.data)
  : (Repo.data + Error.data) * World :=
  match owner with
  | Some org =>
      if negb (truthy_string org)
      then forge w (POST_user_repos createParams)
      else forge w (POST_org_repos org createParams)
  | None => forge w (POST_user_repos createParams)
  end.

Definition two_files : list RepositoryFile.data :=
  [ {| RepositoryFile.path := "a.txt"; RepositoryFile.content := "alpha" |};
    {| RepositoryFile.path := "b.txt"; RepositoryFile.content := "beta" |} ].

Definition forge_without_list : Forge unit :=
  rejecting (fail_when is_list not_found) (fixture [] (pr7 "open" None) []).

Definition forge_with_files (files : list PullFile.data) : Forge unit :=
  fulfilling (fixture [] (pr7 "open" None) files).

(** ** The resource [pull-requests]

    [server.resource("pull-requests", github://{owner}/{repo}/pulls, ...)]:
    the handler receives the URI and the variables of the template, each a
    string or an array of strings. *)

Inductive ParamValue : Type :=
| PString (s : string)
| PArray (items : list string).

(** The object [params]; a key that is not bound reads as [undefined]. *)
Definition Params : Type := list (string * ParamValue).

Fixpoint get_param (key : string) (params : Params) : option ParamValue :=
  match params with
  | [] => None
  | (k, v) :: rest => if String.eqb k key then Some v else get_param key rest
  end.

(** [Array.isArray(v) ? v[0] : v] *)
Definition first_value (v : option ParamValue) : option string :=
  match v with
  | Some (PString s) => Some s
  | Some (PArray items) => List.hd_error items
  | None => None
  end.

(** [!x] for a string that may be [undefined]. *)
Definition missing (x : option string) : bool :=
  match x with Some s => negb (truthy_string s) | None => true end.

Module ResourceContent.
Record data := { uri : string; text : string }.
End ResourceContent.

Record ReadResourceResult := { contents : list ResourceContent.data }.

Definition resource_entry (pr : Pull.data) : JSON :=
  JObject [ ("number", JNumber (Pull.number pr));
            ("title", JString (Pull.title pr));
            ("url", JString (Pull.html_url pr));
            ("created_at", JString (Pull.created_at pr)) ].

Definition invalid_owner_or_repo : Error.data :=
  {| Error.status := None; Error.message := "Invalid owner or repo provided" |}.

Definition pull_requests_resource (href : string) (params : Params)
  : Promise ReadResourceResult :=
  try_catch
    (let owner := first_value (get_param "owner" params) in
     let repo := first_value (get_param "repo" params) in
     match owner, repo with
     | Some owner, Some repo =>
         if orb (negb (truthy_string owner)) (negb (truthy_string repo))
         then Throw invalid_owner_or_repo
         else
           response <- octokit_request (GET_pulls owner repo "open") ;;
           let prs := List.map resource_entry response in
           Return {| contents :=
                       [ {| ResourceContent.uri := href;
                            ResourceContent.text := JSON_stringify (JArray prs) |} ] |}
     | _, _ => Throw invalid_owner_or_repo
     end)
    (fun error =>
       Return {| contents :=
                   [ {| ResourceContent.uri := href;
                        ResourceContent.text :=
                          "Error fetching pull requests: " ++ Error.message error |} ] |}).

(** ** Vocabulary of the further statements *)

(** Every request [p] may issue satisfies [P], whatever the answers. *)
Fixpoint requests_only {A : Type} (P : Request -> Prop) (p : Promise A) : Prop :=
  match p with
  | Await r k => P r /\ forall ans, requests_only P (k ans)
  | _ => True
  end.

(** The routes a tool may call. *)
Definition endpoints (c : ToolCall) : list Step :=
  match c with
  | Discuss_pr _ _ None _ => [ListPulls]
  | Discuss_pr _ _ (Some _) _ => [FetchPull]
  | List_prs _ _ _ => [ListPulls]
  | Comment_on_pr _ _ _ _ => [CreateComment]
  | Request_reviewers _ _ _ _ => [RequestReviewers]
  | Merge_pr _ _ _ _ _ => [FetchPull; Merge]
  | Summarize_pr _ _ _ => [FetchPull; FetchPullFiles]
  | Close_pr _ _ _ _ => [FetchPull; UpdateState; CreateComment]
  | Create_repository _ _ _ _ _ _ =>
      [CreateRepo; FetchRef; CreateBlob; FetchTree; CreateTree; CreateCommit;
       UpdateRef]
  | Delete_repository _ _ _ => [ProbeRepo; DeleteRepo]
  end.

(** The repository a request addresses, for the routes under
    [/repos/{owner}/{repo}]. *)
Definition repository_of (r : Request) : option (string * string) :=
  match r with
  | GET_pulls o n _ | GET_pull o n _ | GET_pull_files o n _
  | POST_issue_comment o n _ _ | POST_requested_reviewers o n _ _
  | PUT_pull_merge o n _ _ _ _ | PATCH_issue o n _ _
  | GET_git_ref o n _ | POST_git_blobs o n _ _ | GET_git_tree o n _ _
  | POST_git_trees o n _ _ | POST_git_commits o n _ _ _ | PATCH_git_ref o n _ _
  | GET_repo o n | DELETE_repo o n => Some (o, n)
  | POST_user_repos _ | POST_org_repos _ _ => None
  end.

(** The pull request (or issue) number a request carries, if any. *)
Definition number_of (r : Request) : option Z :=
  match r with
  | GET_pull _ _ n | GET_pull_files _ _ n | POST_issue_comment _ _ n _
  | POST_requested_reviewers _ _ n _ | PUT_pull_merge _ _ n _ _ _
  | PATCH_issue _ _ n _ => Some n
  | _ => None
  end.

(** The repository named by the arguments of a tool call. *)
Definition target_of (c : ToolCall) : option (string * string) :=
  match c with
  | Discuss_pr o r _ _ | List_prs o r _ | Comment_on_pr o r _ _
  | Request_reviewers o r _ _ | Merge_pr o r _ _ _ | Summarize_pr o r _
  | Close_pr o r _ _ | Delete_repository o r _ => Some (o, r)
  | Create_repository _ _ _ _ _ _ => None
  end.

(** The pull request number named by the arguments of a tool call. *)
Definition pull_of (c : ToolCall) : option Z :=
  match c with
  | Discuss_pr _ _ n _ => n
  | Comment_on_pr _ _ n _ | Request_reviewers _ _ n _ | Merge_pr _ _ n _ _
  | Summarize_pr _ _ n | Close_pr _ _ n _ => Some n
  | _ => None
  end.

(** The largest number of requests a tool call can issue. *)
Definition call_bound (c : ToolCall) : nat :=
  match c with
  | Discuss_pr _ _ _ _ | List_prs _ _ _ | Comment_on_pr _ _ _ _
  | Request_reviewers _ _ _ _ => 1
  | Merge_pr _ _ _ _ _ | Summarize_pr _ _ _ | Delete_repository _ _ _ => 2
  | Close_pr _ _ _ _ => 3
  | Create_repository _ _ _ _ (Some ((_ :: _) as files)) _ => 6 + List.length files
  | Create_repository _ _ _ _ _ _ => 1
  end.

(** The traces a create-repository run over [n] files can leave: the
    workflow cut after one of its steps, the blob creations taken as one
    step. *)
Definition create_stages (n : nat) : list (list Step) :=
  let blobs := List.repeat CreateBlob n in
  [ [CreateRepo];
    [CreateRepo; FetchRef];
    ([CreateRepo; FetchRef] ++ blobs)%list;
    ([CreateRepo; FetchRef] ++ blobs ++ [FetchTree])%list;
    ([CreateRepo; FetchRef] ++ blobs ++ [FetchTree; CreateTree])%list;
    ([CreateRepo; FetchRef] ++ blobs ++ [FetchTree; CreateTree; CreateCommit])%list;
    create_workflow n ].

(** A forge without memory that fulfils every request, answering [f r]. *)
Definition answering (f : forall r : Request, Data r) : Forge unit :=
  fun w r => (inl (f r), w).

(** What [answering f] returns for the creation request. *)
Definition created_by (f : forall r : Request, Data r) (owner : option string)
    (createParams : CreateParams.data) : Repo.data :=
  match owner with
  | Some org =>
      if negb (truthy_string org)
      then f (POST_user_repos createParams)
      else f (POST_org_repos org createParams)
  | None => f (POST_user_repos createParams)
  end.

Definition blob_call (owner repo : string) (file : RepositoryFile.data) : Request :=
  POST_git_blobs owner repo (base64 (RepositoryFile.content file)) "base64".

Definition tree_item (file : RepositoryFile.data) (blob : GitObject)
  : TreeItem.data :=
  {| TreeItem.path := RepositoryFile.path file;
     TreeItem.mode := "100644";
     TreeItem.type := "blob";
     TreeItem.sha := sha blob |}.

Definition forge_rejecting_all (e : Error.data) : Forge unit :=
  rejecting (fun _ => Some e) (fixture [] (pr7 "open" None) []).

Definition is_comment (r : Request) : bool :=
  match r with POST_issue_comment _ _ _ _ => true | _ => false end.

Definition is_merge (r : Request) : bool :=
  match r with PUT_pull_merge _ _ _ _ _ _ => true | _ => false end.

Definition is_delete (r : Request) : bool :=
  match r with DELETE_repo _ _ => true | _ => false end.

Definition is_files (r : Request) : bool :=
  match r with GET_pull_files _ _ _ => true | _ => false end.

Definition is_blob (r : Request) : bool :=
  match r with POST_git_blobs _ _ _ _ => true | _ => false end.

Definition forbidden : Error.data :=
  {| Error.status := Some 403; Error.message := "Forbidden" |}.

Definition unauthorized : Error.data :=
  {| Error.status := Some 401; Error.message := "Bad credentials" |}.

Definition server_error : Error.data :=
  {| Error.status := Some 500; Error.message := "Server Error" |}.

(** * Properties *)

(** ** The string functions on known values *)

Example base64_rfc4648 :
  base64 EmptyString = EmptyString /\ base64 "f" = "Zg==" /\ base64 "fo" = "Zm8="
  /\ base64 "foo" = "Zm9v" /\ base64 "foobar" = "Zm9vYmFy".
Proof. repeat split. Qed.

Example stringify_empty_array : JSON_stringify (JArray []) = "[]".
Proof. reflexivity. Qed.

Example stringify_nested :
  JSON_stringify (JArray [JObject [("n", JNumber 5); ("u", JUndefined)]; JUndefined])
  = "[" ++ nl ++ "  {" ++ nl ++ "    " ++ dquote ++ "n" ++ dquote ++ ": 5" ++ nl
      ++ "  }," ++ nl ++ "  null" ++ nl ++ "]".
Proof. reflexivity. Qed.

Example quote_escapes :
  QuoteJSONString ("a" ++ dquote ++ nl)
  = dquote ++ "a" ++ backslash ++ dquote ++ backslash ++ "n" ++ dquote.
Proof. reflexivity. Qed.




(** ** How [run] goes through [bind], [try_catch] and a batch of requests *)

Section Runs.
Context {World : Type} (forge : Forge World).

Lemma run_bind {A B : Type} (p : Promise A) (f : A -> Promise B) (w : World) :
  run forge (bind p f) w =
    match outcome (run forge p w) with
    | inl a =>
        let r2 := run forge (f a) (world (run forge p w)) in
        {| outcome := outcome r2;
           calls := (calls (run forge p w) ++ calls r2)%list;
           world := world r2 |}
    | inr e =>
        {| outcome := inr e;
           calls := calls (run forge p w);
           world := world (run forge p w) |}
    end.
Proof.
  revert w; induction p as [a | e | r k IH]; intros w; simpl.
  - destruct (run forge (f a) w); reflexivity.
  - reflexivity.
  - destruct (forge w r) as [ans w']. rewrite IH.
    destruct (outcome (run forge (k ans) w')); reflexivity.
Qed.

Lemma run_try_catch {A : Type} (p : Promise A) (h : Error.data -> Promise A)
    (w : World) :
  run forge (try_catch p h) w =
    match outcome (run forge p w) with
    | inl a =>
        {| outcome := inl a;
           calls := calls (run forge p w);
           world := world (run forge p w) |}
    | inr e =>
        let r2 := run forge (h e) (world (run forge p w)) in
        {| outcome := outcome r2;
           calls := (calls (run forge p w) ++ calls r2)%list;
           world := world r2 |}
    end.
Proof.
  revert w; induction p as [a | e | r k IH]; intros w; simpl.
  - reflexivity.
  - destruct (run forge (h e) w); reflexivity.
  - destruct (forge w r) as [ans w']. rewrite IH.
    destruct (outcome (run forge (k ans) w')); reflexivity.
Qed.

(** A batch issues one request per element, in order, whatever the forge
    answers, and never rejects by itself. *)
Lemma run_request_each {A T : Type} (mk : A -> Request)
    (data : forall a, Data (mk a) -> T) (l : list A) (w : World) :
  calls (run forge (request_each mk data l) w) = List.map mk l
  /\ exists settled,
       outcome (run forge (request_each mk data l) w) = inl settled
       /\ List.length settled = List.length l.
Proof.
  revert w; induction l as [| a rest IH]; intros w; simpl.
  - split; [reflexivity | exists []; split; reflexivity].
  - destruct (forge w (mk a)) as [ans w']. rewrite run_bind.
    destruct (IH w') as [Hcalls [settled [Hout Hlen]]].
    rewrite Hout. simpl. rewrite Hcalls, app_nil_r. split; [reflexivity |].
    eexists; split; [reflexivity |]. simpl. now rewrite Hlen.
Qed.

(** A computation that settles gives an envelope on every forge. *)
Lemma settles_run {A : Type} (P : A -> Prop) (p : Promise A) (w : World) :
  settles P p -> exists a, outcome (run forge p w) = inl a /\ P a.
Proof.
  revert w; induction p as [a | e | r k IH]; intros w H; simpl in *.
  - now exists a.
  - contradiction.
  - destruct (forge w r) as [ans w']. simpl. now apply IH.
Qed.
End Runs.

Lemma append_assoc (a b c : string) : (a ++ b) ++ c = a ++ (b ++ c).
Proof. induction a as [| x a IH]; simpl; [reflexivity | now rewrite IH]. Qed.

Ltac reassociate :=
  repeat (progress (rewrite ?append_assoc; cbn [append])).

Lemma returns_bind {A B : Type} (P : B -> Prop) (p : Promise A)
    (f : A -> Promise B) :
  returns (fun a => returns P (f a)) p -> returns P (bind p f).
Proof.
  induction p as [a | e | r k IH]; simpl; intros H; auto.
Qed.

Lemma returns_any {A : Type} (p : Promise A) : returns (fun _ => True) p.
Proof. induction p as [a | e | r k IH]; simpl; auto. Qed.

Lemma returns_weaken {A : Type} (P Q : A -> Prop) (p : Promise A) :
  (forall a, P a -> Q a) -> returns P p -> returns Q p.
Proof. intros HPQ. induction p as [a | e | r k IH]; simpl; auto. Qed.

(** Under a [catch] whose handler settles, the whole [try] settles. *)
Lemma settles_try_catch {A : Type} (P : A -> Prop) (p : Promise A)
    (h : Error.data -> Promise A) :
  returns P p -> (forall e, settles P (h e)) -> settles P (try_catch p h).
Proof.
  intros Hp Hh. induction p as [a | e | r k IH]; simpl in *; auto.
Qed.

(** ** delete-repository *)

(** C6.  Without confirmation, delete-repository issues no request at all,
    neither the existence probe nor the deletion, and returns the
    informational envelope "deletion aborted", which carries no error
    flag. *)
Theorem delete_repository_unconfirmed :
  forall (World : Type) (forge : Forge World) (w : World) (owner repo : string),
    let r := run forge (delete_repository owner repo false) w in
    calls r = []
    /\ outcome r = inl deletion_aborted
    /\ flagged_as_error deletion_aborted = false.
Proof.
  intros World forge w owner repo. simpl. repeat split.
Qed.

(** C1, as the code has it.  With confirmation, when the existence probe
    fails with status 404, delete-repository returns the "does not exist"
    envelope with the error flag set, and the probe is the only request
    issued: the deletion is never called. *)
Theorem delete_repository_probe_404 :
  forall (World : Type) (forge : Forge World) (w w' : World)
         (owner repo : string) (e : Error.data),
    forge w (GET_repo owner repo) = (inr e, w') ->
    Error.status e = Some 404 ->
    let r := run forge (delete_repository owner repo true) w in
    outcome r = inl {| content := [ text_block (does_not_exist owner repo) ];
                       isError := Some true |}
    /\ calls r = [GET_repo owner repo]
    /\ count_step DeleteRepo (calls r) = 0%nat.
Proof.
  intros World forge w w' owner repo e Hprobe Hstatus.
  unfold delete_repository, status_is. simpl. rewrite Hprobe. simpl.
  rewrite Hstatus. simpl. repeat split.
Qed.

Lemma delete_repository_probe_404_witness :
  forge_without_repo tt (GET_repo "o" "r") = (inr not_found, tt)
  /\ Error.status not_found = Some 404
  /\ outcome (run forge_without_repo (delete_repository "o" "r" true) tt)
     = inl {| content := [ text_block (does_not_exist "o" "r") ];
              isError := Some true |}.
Proof.
  split; [reflexivity | split; [reflexivity |]].
  apply (delete_repository_probe_404 unit forge_without_repo tt tt "o" "r"
           not_found eq_refl eq_refl).
Defined.

(** The claim C1 as the specification words it fails: on a forge where the
    repository is missing the probe is answered 404, and the envelope is
    flagged as an error. *)
Lemma delete_repository_probe_404_is_flagged :
  forge_without_repo tt (GET_repo "o" "r") = (inr not_found, tt)
  /\ Error.status not_found = Some 404
  /\ ~ (exists env,
          outcome (run forge_without_repo (delete_repository "o" "r" true) tt)
            = inl env
          /\ flagged_as_error env = false).
Proof.
  split; [reflexivity | split; [reflexivity |]].
  intros [env [Hout Hflag]]. vm_compute in Hout.
  inversion Hout; subst env. discriminate Hflag.
Qed.

(** ** list-prs *)

(** C2, as the code has it.  When the forge returns an empty list of pull
    requests, list-prs returns an envelope without error flag whose one
    text block is the heading, a blank line and the rendering of the empty
    list, that is the two characters of an empty JSON array. *)
Theorem list_prs_empty :
  forall (World : Type) (forge : Forge World) (w w' : World)
         (owner repo : string) (state : StateFilter),
    forge w (GET_pulls owner repo (state_name state)) = (inl [], w') ->
    outcome (run forge (list_prs owner repo state) w)
    = inl {| content := [ text_block (heading state owner repo ++ nl ++ nl ++ "[]") ];
             isError := None |}.
Proof.
  intros World forge w w' owner repo state Hlist.
  unfold list_prs, heading. simpl. rewrite Hlist. simpl.
  reassociate. reflexivity.
Qed.

Lemma list_prs_empty_witness :
  forge_without_pulls tt (GET_pulls "o" "r" (state_name open)) = (inl [], tt)
  /\ outcome (run forge_without_pulls (list_prs "o" "r" open) tt)
     = inl {| content := [ text_block (heading open "o" "r" ++ nl ++ nl ++ "[]") ];
              isError := None |}.
Proof.
  split; [reflexivity |].
  apply (list_prs_empty unit forge_without_pulls tt tt "o" "r" open eq_refl).
Defined.

(** The claim C2 as the specification words it fails: for an empty list
    the text is not a message of its own, it ends with the rendering of the
    empty structure. *)
Lemma list_prs_empty_renders_structure :
  forge_without_pulls tt (GET_pulls "o" "r" "open") = (inl [], tt)
  /\ text_of (outcome (run forge_without_pulls (list_prs "o" "r" open) tt))
     = [ "Open PRs for o/r:" ++ nl ++ nl ++ JSON_stringify (JArray []) ]
  /\ ~ (exists env,
          outcome (run forge_without_pulls (list_prs "o" "r" open) tt) = inl env
          /\ flagged_as_error env = false
          /\ forall b, In b (content env) ->
                       ends_with (JSON_stringify (JArray [])) (text b) = false).
Proof.
  split; [reflexivity | split; [reflexivity |]].
  intros [env [Hout [_ Hexplicit]]]. vm_compute in Hout.
  inversion Hout; subst env.
  specialize (Hexplicit _ (or_introl eq_refl)). vm_compute in Hexplicit.
  discriminate Hexplicit.
Qed.

(** ** merge-pr *)

(** C3.  When the fetch before the merge reports a mergeable flag that is
    not true (false, or null for unknown), merge-pr issues the fetch alone,
    no merge call, and returns the informational "not mergeable" envelope
    without error flag.  And whenever a merge call is issued, the fetch had
    succeeded and reported mergeable = true. *)
Theorem merge_pr_only_when_mergeable :
  forall (World : Type) (forge : Forge World) (w : World)
         (owner repo : string) (prNumber : Z)
         (commitTitle commitMessage : option string),
    let r := run forge (merge_pr owner repo prNumber commitTitle commitMessage) w in
    (forall pr w',
        forge w (GET_pull owner repo prNumber) = (inl pr, w') ->
        Pull.mergeable pr <> Some true ->
        calls r = [GET_pull owner repo prNumber]
        /\ count_step Merge (calls r) = 0%nat
        /\ outcome r = inl {| content := [ text_block (not_mergeable_text prNumber) ];
                              isError := None |})
    /\ (count_step Merge (calls r) <> 0%nat ->
        exists pr w',
          forge w (GET_pull owner repo prNumber) = (inl pr, w')
          /\ Pull.mergeable pr = Some true
          /\ calls r = [GET_pull owner repo prNumber;
                        PUT_pull_merge owner repo prNumber commitTitle
                          commitMessage "merge"]).
Proof.
  intros World forge w owner repo prNumber commitTitle commitMessage.
  unfold merge_pr, not_mergeable. simpl.
  destruct (forge w (GET_pull owner repo prNumber)) as [[pr | e] w1] eqn:Hfetch.
  - simpl. destruct (Pull.mergeable pr) as [[|] |] eqn:Hm; simpl.
    + destruct (forge w1 (PUT_pull_merge owner repo prNumber commitTitle
                            commitMessage "merge")) as [[d | e] w2];
        simpl; (split; [intros pr' w' Heq Hnot; inversion Heq; subst; congruence |]);
        intros _; exists pr, w1; repeat split; assumption.
    + split; [intros pr' w' Heq Hnot; repeat split |].
      intros Hcount. exfalso. apply Hcount. reflexivity.
    + split; [intros pr' w' Heq Hnot; repeat split |].
      intros Hcount. exfalso. apply Hcount. reflexivity.
  - simpl. split; [intros pr' w' Heq; discriminate Heq |].
    intros Hcount. exfalso. apply Hcount. reflexivity.
Qed.

Lemma merge_pr_only_when_mergeable_witness :
  (forge_with_pr "open" (Some false) tt (GET_pull "o" "r" 7)
     = (inl (pr7 "open" (Some false)), tt)
   /\ Pull.mergeable (pr7 "open" (Some false)) <> Some true
   /\ calls (run (forge_with_pr "open" (Some false))
               (merge_pr "o" "r" 7 None None) tt)
      = [GET_pull "o" "r" 7])
  /\ (count_step Merge
        (calls (run (forge_with_pr "open" (Some true))
                  (merge_pr "o" "r" 7 None None) tt)) <> 0%nat
      /\ exists pr w',
           forge_with_pr "open" (Some true) tt (GET_pull "o" "r" 7) = (inl pr, w')
           /\ Pull.mergeable pr = Some true).
Proof.
  split.
  - split; [reflexivity | split; [discriminate |]].
    apply (proj1 (merge_pr_only_when_mergeable unit
                    (forge_with_pr "open" (Some false)) tt "o" "r" 7 None None)
             (pr7 "open" (Some false)) tt eq_refl).
    discriminate.
  - assert (Hcount : count_step Merge
              (calls (run (forge_with_pr "open" (Some true))
                        (merge_pr "o" "r" 7 None None) tt)) <> 0%nat)
      by (vm_compute; discriminate).
    split; [exact Hcount |].
    destruct (proj2 (merge_pr_only_when_mergeable unit
                       (forge_with_pr "open" (Some true)) tt "o" "r" 7 None None)
                Hcount) as [pr [w' [Hf [Hm _]]]].
    exists pr, w'. split; assumption.
Defined.

(** ** close-pr *)

(** C5, as the code has it.  When the fetched state of the pull request is
    not open, close-pr issues the fetch alone, no state update, and returns
    the informational envelope that names the current state.  When the state
    is open, a non-empty reason is supplied and the state update succeeds,
    the calls are the fetch, the state update and then exactly one comment
    creation carrying the reason. *)
Theorem close_pr_workflow :
  forall (World : Type) (forge : Forge World) (w : World)
         (owner repo : string) (prNumber : Z) (reason : option string),
    let r := run forge (close_pr owner repo prNumber reason) w in
    (forall pr w1,
        forge w (GET_pull owner repo prNumber) = (inl pr, w1) ->
        Pull.state pr <> "open" ->
        calls r = [GET_pull owner repo prNumber]
        /\ count_step UpdateState (calls r) = 0%nat
        /\ outcome r = inl {| content := [ text_block (already_text prNumber pr) ];
                              isError := None |})
    /\ (forall pr w1 w2 why,
          forge w (GET_pull owner repo prNumber) = (inl pr, w1) ->
          Pull.state pr = "open" ->
          reason = Some why ->
          why <> EmptyString ->
          forge w1 (PATCH_issue owner repo prNumber "closed") = (inl tt, w2) ->
          calls r = [GET_pull owner repo prNumber;
                     PATCH_issue owner repo prNumber "closed";
                     POST_issue_comment owner repo prNumber
                       ("Closing this PR: " ++ why)]
          /\ count_step CreateComment (calls r) = 1%nat).
Proof.
  intros World forge w owner repo prNumber reason.
  unfold close_pr, already_text. simpl.
  destruct (forge w (GET_pull owner repo prNumber)) as [[pr | e] w1] eqn:Hfetch;
    simpl.
  2:{ split; [intros ? ? Heq; discriminate Heq | intros ? ? ? ? Heq; discriminate Heq]. }
  destruct (String.eqb_spec (Pull.state pr) "open") as [Hopen | Hnot]; simpl.
  - split.
    { intros pr' w' Heq Hstate. inversion Heq; subst. contradiction. }
    intros pr' w1' w2 why Heq _ Hreason Hwhy Hpatch.
    inversion Heq; subst pr' w1'. subst reason. rewrite Hpatch. simpl.
    destruct why as [| c why']; [contradiction |]. simpl.
    destruct (forge w2 (POST_issue_comment owner repo prNumber
                          (String "C" _))) as [[d | e] w3]; simpl;
      split; reflexivity.
  - split.
    { intros pr' w' Heq _. inversion Heq; subst. repeat split. }
    intros pr' w1' w2 why Heq Hstate. inversion Heq; subst. contradiction.
Qed.

Lemma close_pr_workflow_witness :
  (forge_with_pr "closed" None tt (GET_pull "o" "r" 7)
     = (inl (pr7 "closed" None), tt)
   /\ Pull.state (pr7 "closed" None) <> "open"
   /\ calls (run (forge_with_pr "closed" None) (close_pr "o" "r" 7 None) tt)
      = [GET_pull "o" "r" 7])
  /\ (forge_with_pr "open" None tt (GET_pull "o" "r" 7)
        = (inl (pr7 "open" None), tt)
      /\ Pull.state (pr7 "open" None) = "open"
      /\ "superseded" <> EmptyString
      /\ forge_with_pr "open" None tt (PATCH_issue "o" "r" 7 "closed")
         = (inl tt, tt)
      /\ count_step CreateComment
           (calls (run (forge_with_pr "open" None)
                     (close_pr "o" "r" 7 (Some "superseded")) tt)) = 1%nat).
Proof.
  split.
  - split; [reflexivity | split; [discriminate |]].
    apply (proj1 (close_pr_workflow unit (forge_with_pr "closed" None) tt
                    "o" "r" 7 None)
             (pr7 "closed" None) tt eq_refl).
    discriminate.
  - split; [reflexivity | split; [reflexivity | split; [discriminate |]]].
    split; [reflexivity |].
    apply (proj2 (close_pr_workflow unit (forge_with_pr "open" None) tt
                    "o" "r" 7 (Some "superseded"))
             (pr7 "open" None) tt tt "superseded" eq_refl eq_refl eq_refl).
    + discriminate.
    + reflexivity.
Defined.

(** The claim C5 as the specification words it fails for a reason that is
    supplied but empty: the pull request is open and the state update
    succeeds, yet no comment is created. *)
Lemma close_pr_empty_reason_no_comment :
  forge_with_pr "open" None tt (GET_pull "o" "r" 7) = (inl (pr7 "open" None), tt)
  /\ Pull.state (pr7 "open" None) = "open"
  /\ Some EmptyString <> None
  /\ forge_with_pr "open" None tt (PATCH_issue "o" "r" 7 "closed") = (inl tt, tt)
  /\ calls (run (forge_with_pr "open" None)
              (close_pr "o" "r" 7 (Some EmptyString)) tt)
     = [GET_pull "o" "r" 7; PATCH_issue "o" "r" 7 "closed"]
  /\ count_step CreateComment
       (calls (run (forge_with_pr "open" None)
                 (close_pr "o" "r" 7 (Some EmptyString)) tt)) <> 1%nat.
Proof.
  repeat split; try reflexivity; discriminate.
Qed.

(** ** create-repository *)

Section CreateRepository.
Context {World : Type} (forge : Forge World).

Lemma step_of_create_call (owner : option string) (params : CreateParams.data) :
  step_of (create_call owner params) = CreateRepo.
Proof.
  destruct owner as [org |]; simpl; [destruct (truthy_string org) |]; reflexivity.
Qed.

Lemma run_create_repo (owner : option string) (params : CreateParams.data) (w : World) :
  run forge (create_repo owner params) w
  = {| outcome := fst (create_answer forge w owner params);
       calls := [create_call owner params];
       world := snd (create_answer forge w owner params) |}.
Proof.
  unfold create_repo, create_answer, create_call.
  destruct owner as [org |]; [destruct (truthy_string org) |]; simpl;
    match goal with
    | |- context [forge w ?r] => destruct (forge w r) as [[d | e] w']
    end; reflexivity.
Qed.

Lemma request_each_fulfilled {A T : Type} (mk : A -> Request)
    (data : forall a, Data (mk a) -> T) (l : list A) (w : World) :
  always_fulfils forge ->
  exists ds,
    outcome (run forge (request_each mk data l) w) = inl (List.map inl ds)
    /\ List.length ds = List.length l.
Proof.
  intros Hok. revert w; induction l as [| a rest IH]; intros w; simpl.
  - exists []. split; reflexivity.
  - destruct (Hok w (mk a)) as [d [w' Hanswer]]. rewrite Hanswer.
    rewrite run_bind. destruct (IH w') as [ds [Hout Hlen]]. rewrite Hout.
    simpl. exists (data a d :: ds). simpl. split; [reflexivity | now rewrite Hlen].
Qed.

Lemma all_fulfilled_inl {T : Type} (ds : list T) :
  all_fulfilled (List.map inl ds) = inl ds.
Proof.
  induction ds as [| d ds IH]; simpl; [reflexivity | now rewrite IH].
Qed.

Lemma steps_of_batch {A : Type} (mk : A -> Request) (step : Step) (l : list A) :
  (forall a, step_of (mk a) = step) ->
  List.map step_of (List.map mk l) = List.repeat step (List.length l).
Proof.
  intros Hmk. induction l as [| a rest IH]; simpl; [reflexivity |].
  now rewrite Hmk, IH.
Qed.

Lemma prefix_of_refl {A : Type} (l : list A) : prefix_of l l.
Proof. exists []. now rewrite app_nil_r. Qed.

Lemma prefix_of_cons {A : Type} (x : A) (l full : list A) :
  prefix_of l full -> prefix_of (x :: l) (x :: full).
Proof. intros [rest ->]. now exists rest. Qed.

Lemma prefix_of_nil {A : Type} (full : list A) : prefix_of [] full.
Proof. now exists full. Qed.

Lemma prefix_of_app {A : Type} (l l' full : list A) :
  prefix_of l' full -> prefix_of (l ++ l')%list (l ++ full)%list.
Proof. intros [rest ->]. exists rest. now rewrite app_assoc. Qed.

(** The block that adds the files: its calls are always a prefix of the
    workflow, the whole workflow when it returns, and it returns on a
    forge that fulfils every request. *)
Lemma run_add_initial_files (name : string) (isPrivate : bool)
    (repoData : Repo.data) (files : list RepositoryFile.data) (w : World) :
  let r := run forge (add_initial_files name isPrivate repoData files) w in
  prefix_of (List.map step_of (calls r)) (files_workflow (List.length files))
  /\ (forall env, outcome r = inl env ->
                  isError env = None
                  /\ List.map step_of (calls r)
                     = files_workflow (List.length files))
  /\ (always_fulfils forge -> exists env, outcome r = inl env).
Proof.
  unfold add_initial_files, files_workflow, Promise_all. cbn zeta.
  set (repoOwner := login (Repo.owner repoData)).
  set (repo := Repo.name repoData).
  set (branch := "heads/" ++ Repo.default_branch repoData).
  cbn [bind octokit_request run].
  destruct (forge w (GET_git_ref repoOwner repo branch)) as [[ref | e] w1] eqn:Href;
    cbn [bind run outcome calls world].
  2:{ split; [apply prefix_of_cons, prefix_of_nil |].
      split; [intros env Henv; discriminate Henv |].
      intros Hok. destruct (Hok w (GET_git_ref repoOwner repo branch))
        as [d [w' Hd]]. rewrite Hd in Href. discriminate Href. }
  rewrite !run_bind.
  match goal with
  | |- context [run forge (request_each ?mk ?data files) w1] =>
      destruct (run_request_each forge mk data files w1)
        as [Hcalls [settled [Hout Hlen]]];
      pose proof (request_each_fulfilled mk data files w1) as Hfulfilled;
      assert (Hsteps : List.map step_of (List.map mk files)
                       = List.repeat CreateBlob (List.length files))
        by (apply steps_of_batch; reflexivity);
      remember (run forge (request_each mk data files) w1) as batch eqn:Hbatch
  end.
  rewrite Hout. cbn [outcome calls world]. rewrite Hcalls.
  destruct (all_fulfilled settled) as [blobs | e] eqn:Hall;
    cbn [bind run outcome calls world app].
  2:{ rewrite !app_nil_r. cbn [List.map step_of]. rewrite Hsteps.
      split; [apply prefix_of_cons; exists [FetchTree; CreateTree; CreateCommit; UpdateRef]; reflexivity |].
      split; [intros env Henv; discriminate Henv |].
      intros Hok. destruct (Hfulfilled Hok) as [ds [Hds _]]. rewrite Hout in Hds.
      inversion Hds; subst settled. rewrite all_fulfilled_inl in Hall.
      discriminate Hall. }
  rewrite app_nil_r.
  destruct (forge (world batch) (GET_git_tree repoOwner repo (sha (object ref)) "true"))
    as [[tree | e] w2] eqn:Htree; cbn [bind run outcome calls world app].
  2:{ cbn [List.map]. rewrite map_app, Hsteps. cbn [List.map step_of].
      split; [apply prefix_of_cons, prefix_of_app;
              exists [CreateTree; CreateCommit; UpdateRef]; reflexivity |].
      split; [intros env Henv; discriminate Henv |].
      intros Hok. destruct (Hok (world batch)
                              (GET_git_tree repoOwner repo (sha (object ref)) "true"))
        as [d [w' Hd]]. rewrite Hd in Htree. discriminate Htree. }
  match goal with
  | |- context [forge w2 ?r] =>
      destruct (forge w2 r) as [[newTree | e] w3] eqn:Hnew
  end; cbn [bind run outcome calls world app].
  2:{ cbn [List.map]. rewrite map_app, Hsteps. cbn [List.map step_of].
      split; [apply prefix_of_cons, prefix_of_app;
              exists [CreateCommit; UpdateRef]; reflexivity |].
      split; [intros env Henv; discriminate Henv |].
      intros Hok.
      match type of Hnew with
      | forge w2 ?r = _ => destruct (Hok w2 r) as [d [w' Hd]]
      end. rewrite Hd in Hnew. discriminate Hnew. }
  match goal with
  | |- context [forge w3 ?r] =>
      destruct (forge w3 r) as [[commit | e] w4] eqn:Hcommit
  end; cbn [bind run outcome calls world app].
  2:{ cbn [List.map]. rewrite map_app, Hsteps. cbn [List.map step_of].
      split; [apply prefix_of_cons, prefix_of_app;
              exists [UpdateRef]; reflexivity |].
      split; [intros env Henv; discriminate Henv |].
      intros Hok.
      match type of Hcommit with
      | forge w3 ?r = _ => destruct (Hok w3 r) as [d [w' Hd]]
      end. rewrite Hd in Hcommit. discriminate Hcommit. }
  match goal with
  | |- context [forge w4 ?r] =>
      destruct (forge w4 r) as [[u | e] w5] eqn:Hupdate
  end; cbn [bind run outcome calls world app].
  2:{ cbn [List.map]. rewrite map_app, Hsteps. cbn [List.map step_of].
      split; [apply prefix_of_cons, prefix_of_app, prefix_of_refl |].
      split; [intros env Henv; discriminate Henv |].
      intros Hok.
      match type of Hupdate with
      | forge w4 ?r = _ => destruct (Hok w4 r) as [d [w' Hd]]
      end. rewrite Hd in Hupdate. discriminate Hupdate. }
  cbn [List.map]. rewrite map_app, Hsteps. cbn [List.map step_of].
  split; [apply prefix_of_cons, prefix_of_app, prefix_of_refl |].
  split.
  - intros env Henv. inversion Henv; subst env. split; reflexivity.
  - intros _. eexists. reflexivity.
Qed.
Lemma create_answer_fulfilled (w : World) (owner : option string)
    (params : CreateParams.data) :
  always_fulfils forge ->
  exists repoData w', create_answer forge w owner params = (inl repoData, w').
Proof.
  intros Hok. unfold create_answer.
  destruct owner as [org |]; [destruct (truthy_string org) |]; simpl;
    match goal with |- context [forge w ?r] => exact (Hok w r) end.
Qed.

(** The whole handler: the creation request, then what its branch does. *)
Lemma run_create_repository (owner : option string) (name : string)
    (description : option string) (isPrivate : bool)
    (files : option (list RepositoryFile.data)) (init : bool) (w : World) :
  let params := create_params name description isPrivate init in
  let r := run forge (create_repository owner name description isPrivate
                        files init) w in
  match create_answer forge w owner params with
  | (inr e, w1) =>
      calls r = [create_call owner params]
      /\ outcome r = inl {| content :=
                              [ text_block ("Error creating repository: "
                                              ++ Error.message e) ];
                            isError := Some true |}
  | (inl repoData, w1) =>
      if andb (no_files files) init then
        calls r = [create_call owner params]
        /\ outcome r = inl {| content :=
                                [ text_block (created_text name isPrivate repoData
                                                ++ nl ++ nl
                                                ++ "Initialized with README.md") ];
                              isError := None |}
      else
        match files with
        | Some ((_ :: _) as l) =>
            let block := run forge (add_initial_files name isPrivate repoData l) w1 in
            calls r = create_call owner params :: calls block
            /\ match outcome block with
               | inl env => outcome r = inl env
               | inr e =>
                   outcome r = inl {| content :=
                                        [ text_block ("Error creating repository: "
                                                        ++ Error.message e) ];
                                      isError := Some true |}
               end
        | _ =>
            calls r = [create_call owner params]
            /\ outcome r = inl {| content :=
                                    [ text_block (created_text name isPrivate
                                                    repoData) ];
                                  isError := None |}
        end
  end.
Proof.
  unfold create_repository, create_params. cbn zeta.
  rewrite run_try_catch, run_bind, run_create_repo. cbn [outcome calls world].
  destruct (create_answer forge w owner _) as [[repoData | e] w1];
    cbn [fst snd outcome calls world run app].
  2:{ split; reflexivity. }
  destruct (no_files files && init)%bool; cbn [run outcome calls world app].
  { split; reflexivity. }
  destruct files as [[| f rest] |]; cbn [run outcome calls world app].
  - split; reflexivity.
  - destruct (outcome (run forge (add_initial_files name isPrivate repoData
                                    (f :: rest)) w1)) as [env | e] eqn:Hblock;
      cbn [run outcome calls world app].
    + split; reflexivity.
    + rewrite app_nil_r. split; reflexivity.
  - split; reflexivity.
Qed.
End CreateRepository.

(** C4.  With no files (absent or an empty list) and initializeWithReadme
    set, create-repository issues exactly one request, the creation of the
    repository.  With a non-empty list of files its calls are, in this
    order, create, fetch-ref, one blob creation per file, fetch-tree,
    create-tree, create-commit, update-ref: what a run issues is always a
    prefix of that sequence, it is the whole sequence whenever the handler
    reports success, and it does report success on a forge that fulfils
    every request. *)
Theorem create_repository_call_order :
  forall (World : Type) (forge : Forge World) (w : World)
         (owner : option string) (name : string) (description : option string)
         (isPrivate : bool),
    (forall files,
        no_files files = true ->
        List.map step_of
          (calls (run forge (create_repository owner name description isPrivate
                               files true) w)) = [CreateRepo])
    /\ (forall file rest init,
          let files := file :: rest in
          let r := run forge (create_repository owner name description isPrivate
                                (Some files) init) w in
          prefix_of (List.map step_of (calls r))
                    (create_workflow (List.length files))
          /\ (forall env,
                outcome r = inl env -> flagged_as_error env = false ->
                List.map step_of (calls r) = create_workflow (List.length files))
          /\ (always_fulfils forge ->
              List.map step_of (calls r) = create_workflow (List.length files)
              /\ exists env, outcome r = inl env /\ flagged_as_error env = false)).
Proof.
  intros World forge w owner name description isPrivate. split.
  - intros files Hnone.
    pose proof (run_create_repository forge owner name description isPrivate
                  files true w) as Hrun.
    cbn zeta in Hrun. rewrite Hnone in Hrun. cbn [andb] in Hrun.
    destruct (create_answer forge w owner _) as [[repoData | e] w1];
      destruct Hrun as [Hcalls _]; rewrite Hcalls; cbn [List.map];
      now rewrite step_of_create_call.
  - intros file rest init files r.
    pose proof (run_create_repository forge owner name description isPrivate
                  (Some files) init w) as Hrun.
    cbn zeta in Hrun. fold r in Hrun.
    change (no_files (Some files)) with false in Hrun. cbn [andb] in Hrun.
    unfold create_workflow. cbn [app].
    destruct (create_answer forge w owner _) as [[repoData | e] w1] eqn:Hcreate.
    + unfold files in Hrun at 1. cbv beta iota in Hrun.
      destruct Hrun as [Hcalls Hout]. rewrite Hcalls. cbn [List.map].
      rewrite step_of_create_call.
      destruct (run_add_initial_files forge name isPrivate repoData files w1)
        as [Hprefix [Hreturn Hfulfil]]. unfold files_workflow in *.
      split; [now apply prefix_of_cons |]. split.
      * intros env Henv Hflag.
        destruct (outcome (run forge (add_initial_files name isPrivate repoData
                                        files) w1)) as [env' | e] eqn:Hblock.
        -- destruct (Hreturn env' eq_refl) as [_ Hall]. now rewrite Hall.
        -- rewrite Hout in Henv. inversion Henv; subst env. discriminate Hflag.
      * intros Hok. destruct (Hfulfil Hok) as [env Henv].
        rewrite Henv in Hout. destruct (Hreturn env Henv) as [Hnoflag Hall].
        rewrite Hall. split; [reflexivity |].
        exists env. split; [exact Hout |]. unfold flagged_as_error.
        now rewrite Hnoflag.
    + destruct Hrun as [Hcalls Hout]. rewrite Hcalls. cbn [List.map].
      rewrite step_of_create_call. split; [apply prefix_of_cons, prefix_of_nil |].
      split.
      * intros env Henv Hflag. rewrite Hout in Henv. inversion Henv; subst env.
        discriminate Hflag.
      * intros Hok.
        destruct (create_answer_fulfilled forge w owner
                    (create_params name description isPrivate init) Hok)
          as [repoData [w' Hd]].
        rewrite Hd in Hcreate. discriminate Hcreate.
Qed.

Lemma fulfilling_always_fulfils (fx : Fixture) : always_fulfils (fulfilling fx).
Proof. intros w r. exists (fulfil fx r), w. reflexivity. Qed.

Lemma create_repository_call_order_witness :
  (no_files (Some []) = true
   /\ List.map step_of
        (calls (run forge_without_pulls
                  (create_repository None "demo" None false (Some []) true) tt))
      = [CreateRepo])
  /\ (always_fulfils forge_without_pulls
      /\ List.map step_of
           (calls (run forge_without_pulls
                     (create_repository None "demo" None false (Some two_files)
                        true) tt))
         = [CreateRepo; FetchRef; CreateBlob; CreateBlob; FetchTree; CreateTree;
            CreateCommit; UpdateRef]).
Proof.
  split.
  - split; [reflexivity |].
    apply (proj1 (create_repository_call_order unit forge_without_pulls tt None
                    "demo" None false) (Some []) eq_refl).
  - split; [apply fulfilling_always_fulfils |].
    apply (proj2 (proj2 (proj2 (create_repository_call_order unit
                                  forge_without_pulls tt None "demo" None false)
                           {| RepositoryFile.path := "a.txt"; RepositoryFile.content := "alpha" |}
                           [ {| RepositoryFile.path := "b.txt"; RepositoryFile.content := "beta" |} ]
                           true))
             (fulfilling_always_fulfils _)).
Defined.

(** C10.  With an empty list of files and initializeWithReadme unset,
    create-repository issues exactly one request, the creation of the
    repository, and none of the ref, blob, tree, commit or ref-update
    calls; when that creation succeeds it returns the plain "created"
    envelope describing the repository, without error flag. *)
Theorem create_repository_empty_files_no_readme :
  forall (World : Type) (forge : Forge World) (w : World)
         (owner : option string) (name : string) (description : option string)
         (isPrivate : bool),
    let params := create_params name description isPrivate false in
    let r := run forge (create_repository owner name description isPrivate
                          (Some []) false) w in
    calls r = [create_call owner params]
    /\ List.map step_of (calls r) = [CreateRepo]
    /\ (forall repoData w1,
          create_answer forge w owner params = (inl repoData, w1) ->
          outcome r = inl {| content :=
                               [ text_block (created_text name isPrivate repoData) ];
                             isError := None |}
          /\ flagged_as_error {| content :=
                                   [ text_block (created_text name isPrivate
                                                   repoData) ];
                                 isError := None |} = false).
Proof.
  intros World forge w owner name description isPrivate params r.
  pose proof (run_create_repository forge owner name description isPrivate
                (Some []) false w) as Hrun.
  cbn zeta in Hrun. fold params r in Hrun.
  destruct (create_answer forge w owner params) as [[repoData | e] w1];
    cbn [no_files List.length Nat.eqb andb] in Hrun;
    destruct Hrun as [Hcalls Hout]; rewrite Hcalls; cbn [List.map];
    rewrite step_of_create_call; (split; [reflexivity | split; [reflexivity |]]).
  - intros repoData' w1' Heq. inversion Heq; subst. split; [exact Hout | reflexivity].
  - intros repoData' w1' Heq. discriminate Heq.
Qed.

Lemma create_repository_empty_files_no_readme_witness :
  create_answer forge_without_pulls tt None
    (create_params "demo" None false false)
  = (inl (fx_repo (fixture [] (pr7 "open" None) [])), tt)
  /\ outcome (run forge_without_pulls
                (create_repository None "demo" None false (Some []) false) tt)
     = inl {| content :=
                [ text_block (created_text "demo" false
                                (fx_repo (fixture [] (pr7 "open" None) []))) ];
              isError := None |}.
Proof.
  split; [reflexivity |].
  apply (proj2 (proj2 (create_repository_empty_files_no_readme unit
                         forge_without_pulls tt None "demo" None false))
           (fx_repo (fixture [] (pr7 "open" None) [])) tt eq_refl).
Defined.

(** ** Every envelope has a content block *)

Ltac returns_one_block :=
  repeat match goal with
         | |- forall _, _ => intro
         | |- returns _ (match ?x with _ => _ end) => destruct x
         | |- returns _ (if ?x then _ else _) => destruct x
         | |- returns _ (bind (create_repo _ _) _) => unfold create_repo
         | |- returns _ ?p =>
             match p with
             | context [match ?x with _ => _ end] => is_var x; destruct x
             end
         | |- returns _ (bind (if ?x then _ else _) _) => destruct x
         | |- returns _ (bind (Promise_all _) _) =>
             apply returns_bind;
             apply (returns_weaken (fun _ => True)); [| apply returns_any]
         | |- returns _ (add_initial_files _ _ _ _) =>
             unfold add_initial_files; cbn zeta
         | |- True -> _ => intros _
         | |- one_block _ => reflexivity
         | |- True => exact I
         | _ => progress cbn [returns bind try_catch octokit_request create_repo]
         end.

Lemma handler_settles (c : ToolCall) : settles one_block (handler c).
Proof.
  destruct c; cbn [handler];
    match goal with
    | |- settles _ (?h _ _ _ _ _ _) => unfold h
    | |- settles _ (?h _ _ _ _ _) => unfold h
    | |- settles _ (?h _ _ _ _) => unfold h
    | |- settles _ (?h _ _ _) => unfold h
    end;
    (apply settles_try_catch; [| intros e; reflexivity]);
    returns_one_block.
Qed.

(** C7.  Whatever tool is invoked, with whatever arguments, and whatever the
    forge answers to each request (data or any error), the handler returns
    an envelope, and that envelope has a content block: exactly one, so the
    block list is never empty. *)
Theorem envelope_never_empty :
  forall (World : Type) (forge : Forge World) (w : World) (c : ToolCall),
    exists env,
      outcome (run forge (handler c) w) = inl env
      /\ content env <> []
      /\ List.length (content env) = 1%nat.
Proof.
  intros World forge w c.
  destruct (settles_run forge one_block (handler c) w (handler_settles c))
    as [env [Hout Hone]].
  exists env. split; [exact Hout |]. split; [| exact Hone].
  unfold one_block in Hone. intros Hnil. rewrite Hnil in Hone. discriminate Hone.
Qed.

(** ** discuss-pr without a number, against list-prs *)

(** On a fulfilled request the two handlers run alike: same request, same
    envelope. *)
Lemma discuss_pr_browse_fulfilled :
  forall (World : Type) (forge : Forge World) (w w' : World)
         (owner repo : string) (query : option string) (prs : list Pull.data),
    forge w (GET_pulls owner repo "open") = (inl prs, w') ->
    run forge (discuss_pr owner repo None query) w
    = run forge (list_prs owner repo open) w.
Proof.
  intros World forge w w' owner repo query prs Hlist.
  unfold discuss_pr, list_prs. simpl. rewrite Hlist. reflexivity.
Qed.

(** C8 fails on a rejected request.  On a forge that answers the listing
    with 404 "Not Found", discuss-pr without a number reports
    "Error fetching PR s: Not Found" where list-prs with state open reports
    "Error fetching PRs: Not Found": the envelopes differ. *)
Theorem discuss_pr_browse_error_differs :
  forge_without_list tt (GET_pulls "o" "r" "open") = (inr not_found, tt)
  /\ outcome (run forge_without_list (discuss_pr "o" "r" None None) tt)
     = inl {| content := [ text_block "Error fetching PR s: Not Found" ];
              isError := Some true |}
  /\ outcome (run forge_without_list (list_prs "o" "r" open) tt)
     = inl {| content := [ text_block "Error fetching PRs: Not Found" ];
              isError := Some true |}
  /\ outcome (run forge_without_list (discuss_pr "o" "r" None None) tt)
     <> outcome (run forge_without_list (list_prs "o" "r" open) tt).
Proof.
  repeat split. vm_compute. discriminate.
Qed.

(** ** summarize-pr *)

Lemma reduce_sum {A : Type} (f : A -> Z) (l : list A) (init : Z) :
  reduce (fun sum x => sum + f x) init l = init + sum_of (List.map f l).
Proof.
  unfold reduce. revert init.
  induction l as [| x rest IH]; intros init; simpl; [lia |].
  rewrite IH. lia.
Qed.

(** C9.  The totals of the summary are the sums of the per-file additions
    and of the per-file deletions over the list of changed files the forge
    returned, and the report is rendered from that summary: its "Changes"
    line prints these two sums.  In particular additions 3 and 5 with
    deletions 1 and 0 give totalAdditions = 8 and totalDeletions = 1. *)
Theorem summarize_pr_totals :
  forall (World : Type) (forge : Forge World) (w w1 w2 : World)
         (owner repo : string) (prNumber : Z)
         (pr : Pull.data) (files : list PullFile.data),
    forge w (GET_pull owner repo prNumber) = (inl pr, w1) ->
    forge w1 (GET_pull_files owner repo prNumber) = (inl files, w2) ->
    let summary := summary_of pr files in
    Summary.totalAdditions summary = sum_of (List.map PullFile.additions files)
    /\ Summary.totalDeletions summary = sum_of (List.map PullFile.deletions files)
    /\ outcome (run forge (summarize_pr owner repo prNumber) w)
       = inl {| content := [ text_block (summary_text prNumber summary files) ];
                isError := None |}
    /\ (exists before after,
          summary_text prNumber summary files
          = before
              ++ string_of_number (sum_of (List.map PullFile.additions files))
              ++ " additions, "
              ++ string_of_number (sum_of (List.map PullFile.deletions files))
              ++ " deletions" ++ after)
    /\ (List.map PullFile.additions files = [3; 5] ->
        List.map PullFile.deletions files = [1; 0] ->
        Summary.totalAdditions summary = 8 /\ Summary.totalDeletions summary = 1).
Proof.
  intros World forge w w1 w2 owner repo prNumber pr files Hpr Hfiles summary.
  assert (Hadd : Summary.totalAdditions summary
                 = sum_of (List.map PullFile.additions files))
    by (unfold summary, summary_of; cbn [Summary.totalAdditions]; now rewrite reduce_sum).
  assert (Hdel : Summary.totalDeletions summary
                 = sum_of (List.map PullFile.deletions files))
    by (unfold summary, summary_of; cbn [Summary.totalDeletions]; now rewrite reduce_sum).
  split; [exact Hadd |]. split; [exact Hdel |]. split.
  { unfold summarize_pr. simpl. rewrite Hpr. simpl. rewrite Hfiles. reflexivity. }
  split.
  { unfold summary_text. rewrite Hadd, Hdel.
    exists ("# PR #" ++ string_of_number prNumber ++ " Summary" ++ nl ++ nl
              ++ "**Title**: " ++ Summary.title summary ++ nl ++ nl
              ++ "**Description**:" ++ nl ++ Summary.description summary ++ nl ++ nl
              ++ "**Changes**: " ++ string_of_number (Summary.changedFiles summary)
              ++ " files changed, "),
           (nl ++ nl ++ "## Modified Files" ++ nl ++ nl
              ++ String.concat (nl ++ nl) (List.map file_section files)).
    reassociate. reflexivity. }
  intros H35 H10. rewrite Hadd, Hdel, H35, H10. split; reflexivity.
Qed.

Lemma summarize_pr_totals_witness :
  forge_with_files [changed "a.txt" 3 1; changed "b.txt" 5 0] tt
    (GET_pull "o" "r" 7) = (inl (pr7 "open" None), tt)
  /\ forge_with_files [changed "a.txt" 3 1; changed "b.txt" 5 0] tt
       (GET_pull_files "o" "r" 7)
     = (inl [changed "a.txt" 3 1; changed "b.txt" 5 0], tt)
  /\ Summary.totalAdditions
       (summary_of (pr7 "open" None) [changed "a.txt" 3 1; changed "b.txt" 5 0]) = 8
  /\ Summary.totalDeletions
       (summary_of (pr7 "open" None) [changed "a.txt" 3 1; changed "b.txt" 5 0]) = 1.
Proof.
  split; [reflexivity | split; [reflexivity |]].
  apply (proj2 (proj2 (proj2 (proj2
           (summarize_pr_totals unit
              (forge_with_files [changed "a.txt" 3 1; changed "b.txt" 5 0])
              tt tt tt "o" "r" 7 (pr7 "open" None)
              [changed "a.txt" 3 1; changed "b.txt" 5 0] eq_refl eq_refl))))
           eq_refl eq_refl).
Defined.

(** * Further properties of the handlers *)

(** ** What a tool may call *)

Lemma requests_only_run {World A : Type} (forge : Forge World)
    (P : Request -> Prop) (p : Promise A) (w : World) :
  requests_only P p -> Forall P (calls (run forge p w)).
Proof.
  revert w; induction p as [a | e | r k IH]; intros w H; simpl in *.
  - constructor.
  - constructor.
  - destruct H as [Hr Hk]. destruct (forge w r) as [ans w']. simpl.
    constructor; [exact Hr | now apply IH].
Qed.

Lemma requests_only_bind {A B : Type} (P : Request -> Prop) (p : Promise A)
    (f : A -> Promise B) :
  requests_only P p -> (forall a, requests_only P (f a)) ->
  requests_only P (bind p f).
Proof.
  intros Hp Hf. induction p as [a | e | r k IH]; simpl in *; auto.
  destruct Hp as [Hr Hk]. split; auto.
Qed.

Lemma requests_only_try_catch {A : Type} (P : Request -> Prop) (p : Promise A)
    (h : Error.data -> Promise A) :
  requests_only P p -> (forall e, requests_only P (h e)) ->
  requests_only P (try_catch p h).
Proof.
  intros Hp Hh. induction p as [a | e | r k IH]; simpl in *; auto.
  destruct Hp as [Hr Hk]. split; auto.
Qed.

Lemma requests_only_request_each {A T : Type} (P : Request -> Prop)
    (mk : A -> Request) (data : forall a, Data (mk a) -> T) (l : list A) :
  (forall a, P (mk a)) -> requests_only P (request_each mk data l).
Proof.
  intros Hmk. induction l as [| a rest IH]; simpl; [exact I |].
  split; [apply Hmk |]. intros ans. apply requests_only_bind; [exact IH |].
  intros settled. exact I.
Qed.

Ltac requests_checked :=
  repeat match goal with
         | |- forall _, _ => intro
         | |- _ /\ _ => split
         | |- True => exact I
         | |- In _ _ => simpl; tauto
         | |- _ = _ => reflexivity
         | |- requests_only _ (bind (Promise_all _) _) =>
             apply requests_only_bind;
             [unfold Promise_all; apply requests_only_bind;
              [apply requests_only_request_each |] |]
         | |- requests_only _ (try_catch (add_initial_files _ _ _ _) _) =>
             apply requests_only_try_catch
         | |- requests_only _ (match all_fulfilled ?a with _ => _ end) =>
             destruct (all_fulfilled a)
         | |- requests_only _ (add_initial_files _ _ _ _) =>
             unfold add_initial_files; cbn zeta
         | |- requests_only _ ?p =>
             match p with context [create_repo _ _] => unfold create_repo end
         | |- requests_only _ ?p =>
             match p with
             | context [match ?x with _ => _ end] => is_var x; destruct x
             | context [if ?x then _ else _] => destruct x
             end
         | _ => progress cbn [requests_only bind try_catch octokit_request]
         end.

(** X1.  Each tool calls only the routes of its own workflow, whatever the forge
    answers: the read tools only read, merge-pr never touches the issue
    state, and no tool other than delete-repository issues a deletion. *)
Theorem tool_calls_own_endpoints :
  forall (World : Type) (forge : Forge World) (w : World) (c : ToolCall),
    Forall (fun r => In (step_of r) (endpoints c))
           (calls (run forge (handler c) w)).
Proof.
  intros World forge w c. apply requests_only_run.
  destruct c as [o r [n |] q | | | | | | | |]; cbn [handler endpoints];
    match goal with
    | |- requests_only _ (?h _ _ _ _ _ _) => unfold h
    | |- requests_only _ (?h _ _ _ _ _) => unfold h
    | |- requests_only _ (?h _ _ _ _) => unfold h
    | |- requests_only _ (?h _ _ _) => unfold h
    end;
    requests_checked.
Qed.

(** X2.  Every request of a pull-request tool or of delete-repository addresses
    the repository named in the arguments, and every request of a tool that
    takes a pull-request number carries that number. *)
Theorem tool_calls_address_arguments :
  forall (World : Type) (forge : Forge World) (w : World) (c : ToolCall),
    (forall owner repo,
        target_of c = Some (owner, repo) ->
        Forall (fun r => repository_of r = Some (owner, repo))
               (calls (run forge (handler c) w)))
    /\ (forall n,
          pull_of c = Some n ->
          Forall (fun r => number_of r = Some n)
                 (calls (run forge (handler c) w))).
Proof.
  intros World forge w c. split.
  - intros owner repo Htarget. apply requests_only_run.
    destruct c as [o r [n |] q | | | | | | | |]; cbn [handler target_of] in *;
      try discriminate Htarget; inversion Htarget; subst;
      match goal with
      | |- requests_only _ (?h _ _ _ _ _) => unfold h
      | |- requests_only _ (?h _ _ _ _) => unfold h
      | |- requests_only _ (?h _ _ _) => unfold h
      end;
      requests_checked.
  - intros n Hpull. apply requests_only_run.
    destruct c as [o r [m |] q | | | | | | | |]; cbn [handler pull_of] in *;
      try discriminate Hpull; inversion Hpull; subst;
      match goal with
      | |- requests_only _ (?h _ _ _ _ _) => unfold h
      | |- requests_only _ (?h _ _ _ _) => unfold h
      | |- requests_only _ (?h _ _ _) => unfold h
      end;
      requests_checked.
Qed.

Lemma tool_calls_address_arguments_witness :
  target_of (Close_pr "o" "r" 7 (Some "superseded")) = Some ("o", "r")
  /\ pull_of (Close_pr "o" "r" 7 (Some "superseded")) = Some 7
  /\ Forall (fun r => repository_of r = Some ("o", "r"))
            (calls (run (forge_with_pr "open" None)
                      (handler (Close_pr "o" "r" 7 (Some "superseded"))) tt))
  /\ Forall (fun r => number_of r = Some 7)
            (calls (run (forge_with_pr "open" None)
                      (handler (Close_pr "o" "r" 7 (Some "superseded"))) tt)).
Proof.
  split; [reflexivity | split; [reflexivity | split]].
  - apply (proj1 (tool_calls_address_arguments unit (forge_with_pr "open" None) tt
                    (Close_pr "o" "r" 7 (Some "superseded"))) "o" "r" eq_refl).
  - apply (proj2 (tool_calls_address_arguments unit (forge_with_pr "open" None) tt
                    (Close_pr "o" "r" 7 (Some "superseded"))) 7 eq_refl).
Defined.

(** ** comment-on-pr *)



(** ** request-reviewers *)

(** X4.  request-reviewers issues exactly one request carrying the list of
    reviewers as given, also when the list is empty (the handler has no
    guard); when fulfilled, the envelope names the number of handles and the
    handles joined by commas. *)
Theorem request_reviewers_single_request :
  forall (World : Type) (forge : Forge World) (w : World)
         (owner repo : string) (prNumber : Z) (reviewers : list string),
    let r := run forge (request_reviewers owner repo prNumber reviewers) w in
    calls r = [POST_requested_reviewers owner repo prNumber reviewers]
    /\ (forall w',
          forge w (POST_requested_reviewers owner repo prNumber reviewers)
            = (inl tt, w') ->
          outcome r
          = inl {| content :=
                     [ text_block (check_mark ++ " Requested "
                                     ++ string_of_number
                                          (Z.of_nat (List.length reviewers))
                                     ++ " reviewer(s) for PR #"
                                     ++ string_of_number prNumber ++ ": "
                                     ++ String.concat ", " reviewers) ];
                   isError := None |})
    /\ (forall e w',
          forge w (POST_requested_reviewers owner repo prNumber reviewers)
            = (inr e, w') ->
          outcome r = inl {| content :=
                               [ text_block ("Error requesting reviewers: "
                                               ++ Error.message e) ];
                             isError := Some true |}).
Proof.
  intros World forge w owner repo prNumber reviewers.
  unfold request_reviewers. simpl.
  destruct (forge w (POST_requested_reviewers owner repo prNumber reviewers))
    as [[d | e] w1]; simpl; (split; [reflexivity |]); split; intros;
    match goal with
    | Heq : (_, _) = (_, _) |- _ => inversion Heq; subst
    end; reflexivity.
Qed.

Lemma request_reviewers_single_request_witness :
  forge_without_pulls tt (POST_requested_reviewers "o" "r" 7 []) = (inl tt, tt)
  /\ calls (run forge_without_pulls (request_reviewers "o" "r" 7 []) tt)
     = [POST_requested_reviewers "o" "r" 7 []]
  /\ text_of (outcome (run forge_without_pulls (request_reviewers "o" "r" 7 []) tt))
     = [ check_mark ++ " Requested 0 reviewer(s) for PR #7: " ].
Proof.
  split; [reflexivity |]. split.
  - apply (proj1 (request_reviewers_single_request unit forge_without_pulls tt
                    "o" "r" 7 [])).
  - rewrite (proj1 (proj2 (request_reviewers_single_request unit
                             forge_without_pulls tt "o" "r" 7 [])) tt eq_refl).
    reflexivity.
Defined.

(** ** merge-pr: the ways it ends *)

(** X5.  A rejected fetch ends merge-pr after that one request; with mergeable
    true the merge is requested with method "merge" and the optional title
    and message as given, and its rejection or fulfilment decides between
    the flagged "Error merging PR" envelope and the "Successfully merged"
    one. *)
Theorem merge_pr_outcomes :
  forall (World : Type) (forge : Forge World) (w : World)
         (owner repo : string) (prNumber : Z)
         (commitTitle commitMessage : option string),
    let r := run forge (merge_pr owner repo prNumber commitTitle commitMessage) w in
    let merge := PUT_pull_merge owner repo prNumber commitTitle commitMessage
                   "merge" in
    let failed e :=
      {| content := [ text_block ("Error merging PR: " ++ Error.message e) ];
         isError := Some true |} in
    (forall e w1,
        forge w (GET_pull owner repo prNumber) = (inr e, w1) ->
        calls r = [GET_pull owner repo prNumber] /\ outcome r = inl (failed e))
    /\ (forall pr w1 e w2,
          forge w (GET_pull owner repo prNumber) = (inl pr, w1) ->
          Pull.mergeable pr = Some true ->
          forge w1 merge = (inr e, w2) ->
          calls r = [GET_pull owner repo prNumber; merge]
          /\ outcome r = inl (failed e))
    /\ (forall pr w1 w2,
          forge w (GET_pull owner repo prNumber) = (inl pr, w1) ->
          Pull.mergeable pr = Some true ->
          forge w1 merge = (inl tt, w2) ->
          calls r = [GET_pull owner repo prNumber; merge]
          /\ outcome r
             = inl {| content :=
                        [ text_block (check_mark ++ " Successfully merged PR #"
                                        ++ string_of_number prNumber ++ "!") ];
                      isError := None |}).
Proof.
  intros World forge w owner repo prNumber commitTitle commitMessage.
  unfold merge_pr, not_mergeable. simpl.
  destruct (forge w (GET_pull owner repo prNumber)) as [[pr | e] w1] eqn:Hfetch;
    simpl.
  - split; [intros ? ? Heq; discriminate Heq |].
    split.
    + intros pr' w1' e w2 Heq Hm Hmerge; inversion Heq; subst pr' w1';
        rewrite Hm; simpl; rewrite Hmerge; simpl; split; reflexivity.
    + intros pr' w1' w2 Heq Hm Hmerge; inversion Heq; subst pr' w1';
        rewrite Hm; simpl; rewrite Hmerge; simpl; split; reflexivity.
  - split; [intros e' w1' Heq; inversion Heq; subst; split; reflexivity |].
    split; [intros ? ? ? ? Heq | intros ? ? ? Heq]; discriminate Heq.
Qed.

Lemma merge_pr_outcomes_witness :
  forge_rejecting_all server_error tt (GET_pull "o" "r" 7) = (inr server_error, tt)
  /\ text_of (outcome (run (forge_rejecting_all server_error)
                         (merge_pr "o" "r" 7 None None) tt))
     = [ "Error merging PR: Server Error" ]
  /\ rejecting (fail_when is_merge server_error)
       (fixture [] (pr7 "open" (Some true)) []) tt
       (PUT_pull_merge "o" "r" 7 None None "merge") = (inr server_error, tt)
  /\ calls (run (rejecting (fail_when is_merge server_error)
                   (fixture [] (pr7 "open" (Some true)) []))
              (merge_pr "o" "r" 7 None None) tt)
     = [GET_pull "o" "r" 7; PUT_pull_merge "o" "r" 7 None None "merge"]
  /\ forge_with_pr "open" (Some true) tt
       (PUT_pull_merge "o" "r" 7 None None "merge") = (inl tt, tt)
  /\ text_of (outcome (run (forge_with_pr "open" (Some true))
                         (merge_pr "o" "r" 7 None None) tt))
     = [ check_mark ++ " Successfully merged PR #7!" ].
Proof.
  split; [reflexivity |]. split.
  { rewrite (proj2 (proj1 (merge_pr_outcomes unit (forge_rejecting_all server_error)
                             tt "o" "r" 7 None None) server_error tt eq_refl)).
    reflexivity. }
  split; [reflexivity |]. split.
  { apply (proj1 (proj2 (merge_pr_outcomes unit
                           (rejecting (fail_when is_merge server_error)
                              (fixture [] (pr7 "open" (Some true)) []))
                           tt "o" "r" 7 None None))
             (pr7 "open" (Some true)) tt server_error tt eq_refl eq_refl eq_refl). }
  split; [reflexivity |].
  rewrite (proj2 (proj2 (proj2 (merge_pr_outcomes unit
                                  (forge_with_pr "open" (Some true))
                                  tt "o" "r" 7 None None))
                    (pr7 "open" (Some true)) tt tt eq_refl eq_refl eq_refl)).
  reflexivity.
Defined.

(** ** close-pr: reasons and failures *)

(** X6.  The state update and the comment are not undone by each other.  When
    the state update is rejected no comment is created; when the state
    update is fulfilled and the comment with the reason is rejected, the
    handler reports the flagged "Error closing PR" envelope although the
    pull request has been closed, and issues nothing after the comment. *)
Theorem close_pr_partial_failure :
  forall (World : Type) (forge : Forge World) (w : World)
         (owner repo : string) (prNumber : Z) (reason : option string),
    let r := run forge (close_pr owner repo prNumber reason) w in
    let update := PATCH_issue owner repo prNumber "closed" in
    let failed e :=
      {| content := [ text_block ("Error closing PR: " ++ Error.message e) ];
         isError := Some true |} in
    (forall pr w1 e w2,
        forge w (GET_pull owner repo prNumber) = (inl pr, w1) ->
        Pull.state pr = "open" ->
        forge w1 update = (inr e, w2) ->
        calls r = [GET_pull owner repo prNumber; update]
        /\ outcome r = inl (failed e))
    /\ (forall pr w1 w2 why e w3,
          forge w (GET_pull owner repo prNumber) = (inl pr, w1) ->
          Pull.state pr = "open" ->
          reason = Some why ->
          why <> EmptyString ->
          forge w1 update = (inl tt, w2) ->
          forge w2 (POST_issue_comment owner repo prNumber
                      ("Closing this PR: " ++ why)) = (inr e, w3) ->
          calls r = [GET_pull owner repo prNumber; update;
                     POST_issue_comment owner repo prNumber
                       ("Closing this PR: " ++ why)]
          /\ outcome r = inl (failed e)).
Proof.
  intros World forge w owner repo prNumber reason. unfold close_pr. simpl.
  destruct (forge w (GET_pull owner repo prNumber)) as [[pr | e] w1] eqn:Hfetch;
    simpl.
  2:{ split; [intros ? ? ? ? Heq | intros ? ? ? ? ? ? Heq]; discriminate Heq. }
  split.
  - intros pr' w1' e w2 Heq Hopen Hupdate. inversion Heq; subst pr' w1'.
    rewrite Hopen. simpl. rewrite Hupdate. simpl. split; reflexivity.
  - intros pr' w1' w2 why e w3 Heq Hopen Hreason Hwhy Hupdate Hcomment.
    inversion Heq; subst pr' w1'. subst reason.
    rewrite Hopen. simpl. rewrite Hupdate. simpl.
    destruct why as [| c why']; [contradiction |]. simpl in *.
    rewrite Hcomment. simpl. split; reflexivity.
Qed.

Lemma close_pr_partial_failure_witness :
  rejecting (fail_when is_comment server_error) (fixture [] (pr7 "open" None) [])
    tt (GET_pull "o" "r" 7) = (inl (pr7 "open" None), tt)
  /\ Pull.state (pr7 "open" None) = "open"
  /\ "superseded" <> EmptyString
  /\ rejecting (fail_when is_comment server_error) (fixture [] (pr7 "open" None) [])
       tt (PATCH_issue "o" "r" 7 "closed") = (inl tt, tt)
  /\ rejecting (fail_when is_comment server_error) (fixture [] (pr7 "open" None) [])
       tt (POST_issue_comment "o" "r" 7 ("Closing this PR: " ++ "superseded"))
     = (inr server_error, tt)
  /\ text_of (outcome (run (rejecting (fail_when is_comment server_error)
                              (fixture [] (pr7 "open" None) []))
                         (close_pr "o" "r" 7 (Some "superseded")) tt))
     = [ "Error closing PR: Server Error" ].
Proof.
  split; [reflexivity | split; [reflexivity | split; [discriminate |]]].
  split; [reflexivity | split; [reflexivity |]].
  rewrite (proj2 (proj2 (close_pr_partial_failure unit
                           (rejecting (fail_when is_comment server_error)
                              (fixture [] (pr7 "open" None) []))
                           tt "o" "r" 7 (Some "superseded"))
                    (pr7 "open" None) tt tt "superseded" server_error tt
                    eq_refl eq_refl eq_refl ltac:(discriminate) eq_refl eq_refl)).
  reflexivity.
Defined.

(** X7.  Without a reason, or with the empty string as reason, close-pr on an
    open pull request issues the fetch and the state update only, and a
    fulfilled update gives the plain "has been closed." envelope without
    error flag. *)
Theorem close_pr_without_reason :
  forall (World : Type) (forge : Forge World) (w w1 w2 : World)
         (owner repo : string) (prNumber : Z) (reason : option string)
         (pr : Pull.data),
    reason = None \/ reason = Some EmptyString ->
    forge w (GET_pull owner repo prNumber) = (inl pr, w1) ->
    Pull.state pr = "open" ->
    forge w1 (PATCH_issue owner repo prNumber "closed") = (inl tt, w2) ->
    let r := run forge (close_pr owner repo prNumber reason) w in
    calls r = [GET_pull owner repo prNumber;
               PATCH_issue owner repo prNumber "closed"]
    /\ outcome r
       = inl {| content :=
                  [ text_block (check_mark ++ " PR #" ++ string_of_number prNumber
                                  ++ " has been closed.") ];
                isError := None |}.
Proof.
  intros World forge w w1 w2 owner repo prNumber reason pr Hreason Hfetch Hopen
         Hupdate.
  unfold close_pr. simpl. rewrite Hfetch. simpl. rewrite Hopen. simpl.
  rewrite Hupdate. simpl.
  destruct Hreason as [-> | ->]; simpl; split; reflexivity.
Qed.

Lemma close_pr_without_reason_witness :
  ((None : option string) = None \/ None = Some EmptyString)
  /\ forge_with_pr "open" None tt (GET_pull "o" "r" 7) = (inl (pr7 "open" None), tt)
  /\ Pull.state (pr7 "open" None) = "open"
  /\ forge_with_pr "open" None tt (PATCH_issue "o" "r" 7 "closed") = (inl tt, tt)
  /\ calls (run (forge_with_pr "open" None) (close_pr "o" "r" 7 None) tt)
     = [GET_pull "o" "r" 7; PATCH_issue "o" "r" 7 "closed"].
Proof.
  split; [left; reflexivity |].
  split; [reflexivity | split; [reflexivity | split; [reflexivity |]]].
  apply (proj1 (close_pr_without_reason unit (forge_with_pr "open" None) tt tt tt
                  "o" "r" 7 None (pr7 "open" None) (or_introl eq_refl)
                  eq_refl eq_refl eq_refl)).
Defined.

(** ** discuss-pr: the query *)

(** X8.  The query of discuss-pr is never sent to the forge: two invocations that
    differ in the query only issue the same requests and leave the forge in
    the same state.  Without a number the query does not reach the envelope
    either; with a number an empty query is treated as an absent one. *)
Theorem discuss_pr_query_is_local :
  forall (World : Type) (forge : Forge World) (w : World)
         (owner repo : string) (prNumber : option Z) (query query' : option string),
    calls (run forge (discuss_pr owner repo prNumber query) w)
    = calls (run forge (discuss_pr owner repo prNumber query') w)
    /\ world (run forge (discuss_pr owner repo prNumber query) w)
       = world (run forge (discuss_pr owner repo prNumber query') w)
    /\ run forge (discuss_pr owner repo None query) w
       = run forge (discuss_pr owner repo None query') w
    /\ run forge (discuss_pr owner repo prNumber (Some EmptyString)) w
       = run forge (discuss_pr owner repo prNumber None) w.
Proof.
  intros World forge w owner repo prNumber query query'.
  unfold discuss_pr.
  assert (Hnone : forall q q',
             run forge (discuss_pr owner repo None q) w
             = run forge (discuss_pr owner repo None q') w).
  { intros q q'. unfold discuss_pr. simpl.
    destruct (forge w (GET_pulls owner repo "open")) as [[d | e] w1]; reflexivity. }
  destruct prNumber as [n |].
  - simpl. destruct (forge w (GET_pull owner repo n)) as [[pr | e] w1]; simpl;
      repeat split; try reflexivity; apply Hnone.
  - fold (discuss_pr owner repo None query).
    fold (discuss_pr owner repo None query').
    fold (discuss_pr owner repo None (Some EmptyString)).
    fold (discuss_pr owner repo None None).
    rewrite (Hnone query query'). repeat split; apply Hnone.
Qed.

(** X9.  With a number, discuss-pr issues the single fetch of that pull request;
    a rejection gives the flagged envelope "Error fetching PR #n" with the
    message of the error (for a number other than 0), and a fulfilled fetch
    with a non-empty query puts the query, unchanged, in front of the
    details. *)
Theorem discuss_pr_inspects_one :
  forall (World : Type) (forge : Forge World) (w : World)
         (owner repo : string) (n : Z) (query : option string),
    let r := run forge (discuss_pr owner repo (Some n) query) w in
    calls r = [GET_pull owner repo n]
    /\ (forall e w1,
          forge w (GET_pull owner repo n) = (inr e, w1) ->
          n <> 0 ->
          outcome r
          = inl {| content :=
                     [ text_block ("Error fetching PR #" ++ string_of_number n
                                     ++ ": " ++ Error.message e) ];
                   isError := Some true |})
    /\ (forall pr w1 q,
          forge w (GET_pull owner repo n) = (inl pr, w1) ->
          query = Some q ->
          q <> EmptyString ->
          outcome r
          = inl {| content :=
                     [ text_block ("Discussion query for PR #" ++ string_of_number n
                                     ++ ": " ++ q ++ nl ++ nl ++ "Details:" ++ nl
                                     ++ JSON_stringify (pr_details pr)) ];
                   isError := None |}).
Proof.
  intros World forge w owner repo n query. unfold discuss_pr. simpl.
  destruct (forge w (GET_pull owner repo n)) as [[pr | e] w1]; simpl.
  - split; [reflexivity |]. split; [intros ? ? Heq; discriminate Heq |].
    intros pr' w1' q Heq Hq Hne. inversion Heq; subst.
    destruct q as [| c q']; [contradiction | reflexivity].
  - split; [reflexivity |]. split; [| intros ? ? ? Heq; discriminate Heq].
    intros e' w1' Heq Hn. inversion Heq; subst.
    unfold truthy_number. destruct (Z.eqb_spec n 0); [contradiction | reflexivity].
Qed.

Lemma discuss_pr_inspects_one_witness :
  forge_rejecting_all not_found tt (GET_pull "o" "r" 7) = (inr not_found, tt)
  /\ 7 <> 0
  /\ text_of (outcome (run (forge_rejecting_all not_found)
                         (discuss_pr "o" "r" (Some 7) None) tt))
     = [ "Error fetching PR #7: Not Found" ]
  /\ forge_with_pr "open" None tt (GET_pull "o" "r" 7) = (inl (pr7 "open" None), tt)
  /\ "why" <> EmptyString
  /\ outcome (run (forge_with_pr "open" None)
                (discuss_pr "o" "r" (Some 7) (Some "why")) tt)
     = inl {| content :=
                [ text_block ("Discussion query for PR #" ++ string_of_number 7
                                ++ ": " ++ "why" ++ nl ++ nl ++ "Details:" ++ nl
                                ++ JSON_stringify (pr_details (pr7 "open" None))) ];
              isError := None |}.
Proof.
  split; [reflexivity | split; [discriminate |]]. split.
  { rewrite (proj1 (proj2 (discuss_pr_inspects_one unit
                             (forge_rejecting_all not_found) tt "o" "r" 7 None))
               not_found tt eq_refl ltac:(discriminate)).
    reflexivity. }
  split; [reflexivity | split; [discriminate |]].
  apply (proj2 (proj2 (discuss_pr_inspects_one unit (forge_with_pr "open" None) tt
                         "o" "r" 7 (Some "why")))
           (pr7 "open" None) tt "why" eq_refl eq_refl).
  discriminate.
Defined.

(** ** delete-repository: the deletion and its errors *)

(** X10.  A deletion is requested only with confirmation and after a fulfilled
    existence probe of the same repository, and then exactly once, as the
    second and last request. *)
Theorem delete_repository_deletes_after_probe :
  forall (World : Type) (forge : Forge World) (w : World)
         (owner repo : string) (confirmation : bool),
    let r := run forge (delete_repository owner repo confirmation) w in
    count_step DeleteRepo (calls r) <> 0%nat ->
    confirmation = true
    /\ (exists w1, forge w (GET_repo owner repo) = (inl tt, w1))
    /\ calls r = [GET_repo owner repo; DELETE_repo owner repo].
Proof.
  intros World forge w owner repo confirmation. unfold delete_repository.
  destruct confirmation; simpl; [| intros H; exfalso; apply H; reflexivity].
  destruct (forge w (GET_repo owner repo)) as [[[] | e] w1]; simpl.
  - destruct (forge w1 (DELETE_repo owner repo)) as [[d | e] w2]; simpl;
      intros _; (split; [reflexivity |]); (split; [| reflexivity]);
      exists w1; reflexivity.
  - destruct (status_is e 404); simpl; intros H; exfalso; apply H; reflexivity.
Qed.

Lemma delete_repository_deletes_after_probe_witness :
  count_step DeleteRepo
    (calls (run forge_without_pulls (delete_repository "o" "r" true) tt)) <> 0%nat
  /\ calls (run forge_without_pulls (delete_repository "o" "r" true) tt)
     = [GET_repo "o" "r"; DELETE_repo "o" "r"].
Proof.
  assert (H : count_step DeleteRepo
                (calls (run forge_without_pulls (delete_repository "o" "r" true) tt))
              <> 0%nat) by (vm_compute; discriminate).
  split; [exact H |].
  apply (proj2 (proj2 (delete_repository_deletes_after_probe unit
                         forge_without_pulls tt "o" "r" true H))).
Defined.

(** X11.  With confirmation, a fulfilled probe and a fulfilled deletion,
    delete-repository issues the probe and then the deletion and returns the
    "successfully deleted" envelope without error flag. *)
Theorem delete_repository_succeeds :
  forall (World : Type) (forge : Forge World) (w w1 w2 : World)
         (owner repo : string),
    forge w (GET_repo owner repo) = (inl tt, w1) ->
    forge w1 (DELETE_repo owner repo) = (inl tt, w2) ->
    let r := run forge (delete_repository owner repo true) w in
    calls r = [GET_repo owner repo; DELETE_repo owner repo]
    /\ outcome r
       = inl {| content :=
                  [ text_block (wastebasket ++ " Repository " ++ owner ++ "/" ++ repo
                                  ++ " has been successfully deleted.") ];
                isError := None |}
    /\ world r = w2.
Proof.
  intros World forge w w1 w2 owner repo Hprobe Hdelete.
  unfold delete_repository. simpl. rewrite Hprobe. simpl. rewrite Hdelete.
  simpl. repeat split.
Qed.

Lemma delete_repository_succeeds_witness :
  forge_without_pulls tt (GET_repo "o" "r") = (inl tt, tt)
  /\ forge_without_pulls tt (DELETE_repo "o" "r") = (inl tt, tt)
  /\ outcome (run forge_without_pulls (delete_repository "o" "r" true) tt)
     = inl {| content :=
                [ text_block (wastebasket ++ " Repository " ++ "o" ++ "/" ++ "r"
                                ++ " has been successfully deleted.") ];
              isError := None |}.
Proof.
  split; [reflexivity | split; [reflexivity |]].
  apply (proj1 (proj2 (delete_repository_succeeds unit forge_without_pulls tt tt tt
                         "o" "r" eq_refl eq_refl))).
Defined.

(** X12.  When the deletion itself is rejected, the envelope is flagged and its
    text is chosen by the status of the error: 403 gives the permission
    hint, 404 the "not found, may have already been deleted" text (not the
    text of the probe), 401 the authentication hint, and any other error,
    with or without a status, its own message after "Error deleting
    repository: ". *)
Theorem delete_repository_rejection_classified :
  forall (World : Type) (forge : Forge World) (w w1 w2 : World)
         (owner repo : string) (e : Error.data),
    forge w (GET_repo owner repo) = (inl tt, w1) ->
    forge w1 (DELETE_repo owner repo) = (inr e, w2) ->
    exists message,
      outcome (run forge (delete_repository owner repo true) w)
      = inl {| content := [ text_block message ]; isError := Some true |}
      /\ (Error.status e = Some 403 ->
          message = "You don't have permission to delete the repository "
                      ++ owner ++ "/" ++ repo
                      ++ ". Make sure your GitHub token has the necessary permissions.")
      /\ (Error.status e = Some 404 ->
          message = "Repository " ++ owner ++ "/" ++ repo
                      ++ " not found. It may have already been deleted or you might not have access to it.")
      /\ (Error.status e = Some 401 ->
          message = "Authentication failed. Check your GitHub token.")
      /\ (Error.status e <> Some 403 -> Error.status e <> Some 404 ->
          Error.status e <> Some 401 ->
          message = "Error deleting repository: " ++ Error.message e).
Proof.
  intros World forge w w1 w2 owner repo e Hprobe Hdelete.
  unfold delete_repository, status_is. simpl. rewrite Hprobe. simpl.
  rewrite Hdelete. simpl. eexists. split; [reflexivity |].
  destruct (Error.status e) as [s |]; simpl.
  - destruct (Z.eqb_spec s 403) as [-> | H403]; simpl.
    { repeat split; intros; try reflexivity; congruence. }
    destruct (Z.eqb_spec s 404) as [-> | H404]; simpl.
    { repeat split; intros; try reflexivity; congruence. }
    destruct (Z.eqb_spec s 401) as [-> | H401]; simpl;
      repeat split; intros; try reflexivity; congruence.
  - repeat split; intros; try reflexivity; congruence.
Qed.

Lemma delete_repository_rejection_classified_witness :
  rejecting (fail_when is_delete forbidden) (fixture [] (pr7 "open" None) []) tt
    (GET_repo "o" "r") = (inl tt, tt)
  /\ rejecting (fail_when is_delete forbidden) (fixture [] (pr7 "open" None) []) tt
       (DELETE_repo "o" "r") = (inr forbidden, tt)
  /\ Error.status forbidden = Some 403
  /\ exists message,
       outcome (run (rejecting (fail_when is_delete forbidden)
                       (fixture [] (pr7 "open" None) []))
                  (delete_repository "o" "r" true) tt)
       = inl {| content := [ text_block message ]; isError := Some true |}
       /\ message = "You don't have permission to delete the repository "
                      ++ "o" ++ "/" ++ "r"
                      ++ ". Make sure your GitHub token has the necessary permissions.".
Proof.
  split; [reflexivity | split; [reflexivity | split; [reflexivity |]]].
  destruct (delete_repository_rejection_classified unit
              (rejecting (fail_when is_delete forbidden)
                 (fixture [] (pr7 "open" None) []))
              tt tt tt "o" "r" forbidden eq_refl eq_refl)
    as [message [Hout [H403 _]]].
  exists message. split; [exact Hout | exact (H403 eq_refl)].
Defined.

(** X13.  A probe rejected with a status other than 404 is not answered on the
    spot: the error reaches the same classification as a rejected deletion
    (401 gives the authentication hint, 403 the permission hint), the
    envelope is flagged, and the deletion is not requested. *)
Theorem delete_repository_probe_rejected :
  forall (World : Type) (forge : Forge World) (w w1 : World)
         (owner repo : string) (e : Error.data),
    forge w (GET_repo owner repo) = (inr e, w1) ->
    Error.status e <> Some 404 ->
    let r := run forge (delete_repository owner repo true) w in
    calls r = [GET_repo owner repo]
    /\ exists message,
         outcome r = inl {| content := [ text_block message ];
                            isError := Some true |}
         /\ (Error.status e = Some 401 ->
             message = "Authentication failed. Check your GitHub token.")
         /\ (Error.status e = Some 403 ->
             message = "You don't have permission to delete the repository "
                         ++ owner ++ "/" ++ repo
                         ++ ". Make sure your GitHub token has the necessary permissions.")
         /\ (Error.status e <> Some 401 -> Error.status e <> Some 403 ->
             message = "Error deleting repository: " ++ Error.message e).
Proof.
  intros World forge w w1 owner repo e Hprobe Hnot404.
  unfold delete_repository, status_is. simpl. rewrite Hprobe. simpl.
  destruct (Error.status e) as [s |] eqn:Hs; simpl.
  - destruct (Z.eqb_spec s 404) as [-> | H404]; [congruence |]. simpl.
    rewrite Hs. simpl.
    destruct (Z.eqb_spec s 403) as [-> | H403]; simpl.
    { split; [reflexivity |]. eexists. split; [reflexivity |].
      repeat split; intros; try reflexivity; congruence. }
    destruct (Z.eqb_spec s 404) as [-> | _]; [congruence |]. simpl.
    destruct (Z.eqb_spec s 401) as [-> | H401]; simpl;
      (split; [reflexivity |]); eexists; (split; [reflexivity |]);
      repeat split; intros; try reflexivity; congruence.
  - rewrite Hs. simpl. split; [reflexivity |]. eexists. split; [reflexivity |].
    repeat split; intros; try reflexivity; congruence.
Qed.

Lemma delete_repository_probe_rejected_witness :
  rejecting (fail_when is_probe unauthorized) (fixture [] (pr7 "open" None) []) tt
    (GET_repo "o" "r") = (inr unauthorized, tt)
  /\ Error.status unauthorized <> Some 404
  /\ calls (run (rejecting (fail_when is_probe unauthorized)
                   (fixture [] (pr7 "open" None) []))
              (delete_repository "o" "r" true) tt)
     = [GET_repo "o" "r"].
Proof.
  split; [reflexivity | split; [discriminate |]].
  apply (proj1 (delete_repository_probe_rejected unit
                  (rejecting (fail_when is_probe unauthorized)
                     (fixture [] (pr7 "open" None) []))
                  tt tt "o" "r" unauthorized eq_refl ltac:(discriminate))).
Defined.

(** ** create-repository: the creation request and the stages *)

Lemma or_default_empty (s : option string) :
  or_default s EmptyString = match s with Some s' => s' | None => EmptyString end.
Proof. destruct s as [[| c s'] |]; reflexivity. Qed.

(** X14.  The first request of create-repository is the creation: on the user
    route when no owner or an empty owner is given, on the organisation
    route of the owner otherwise, with the description defaulting to the
    empty string and auto_init set to the README flag.  When it is rejected
    it stays the only request (nothing is rolled back, nothing else is
    tried) and the flagged "Error creating repository" envelope is
    returned. *)
Theorem create_repository_creation_request :
  forall (World : Type) (forge : Forge World) (w : World)
         (owner : option string) (name : string) (description : option string)
         (isPrivate : bool) (files : option (list RepositoryFile.data))
         (init : bool),
    let r := run forge (create_repository owner name description isPrivate
                          files init) w in
    let params :=
      {| CreateParams.name := name;
         CreateParams.description :=
           match description with Some d => d | None => EmptyString end;
         CreateParams.private := isPrivate;
         CreateParams.auto_init := init |} in
    (owner = None \/ owner = Some EmptyString ->
     List.hd_error (calls r) = Some (POST_user_repos params))
    /\ (forall org,
          owner = Some org -> org <> EmptyString ->
          List.hd_error (calls r) = Some (POST_org_repos org params))
    /\ (forall e w1,
          create_answer forge w owner params = (inr e, w1) ->
          List.length (calls r) = 1%nat
          /\ outcome r = inl {| content :=
                                  [ text_block ("Error creating repository: "
                                                  ++ Error.message e) ];
                                isError := Some true |}).
Proof.
  intros World forge w owner name description isPrivate files init r params.
  pose proof (run_create_repository forge owner name description isPrivate
                files init w) as Hrun.
  cbn zeta in Hrun. fold r in Hrun. unfold create_params in Hrun.
  rewrite or_default_empty in Hrun. fold params in Hrun.
  assert (Hhead : List.hd_error (calls r) = Some (create_call owner params)).
  { destruct (create_answer forge w owner params) as [[repoData | e] w1].
    - destruct (no_files files && init)%bool.
      + destruct Hrun as [-> _]. reflexivity.
      + destruct files as [[| f rest] |]; destruct Hrun as [-> _]; reflexivity.
    - destruct Hrun as [-> _]. reflexivity. }
  split; [| split].
  - intros [-> | ->]; exact Hhead.
  - intros org -> Hne. rewrite Hhead. unfold create_call.
    destruct org; [contradiction | reflexivity].
  - intros e w1 Hcreate. rewrite Hcreate in Hrun. destruct Hrun as [-> ->].
    split; reflexivity.
Qed.

Lemma create_repository_creation_request_witness :
  ((None : option string) = None \/ None = Some EmptyString)
  /\ List.hd_error
       (calls (run forge_without_pulls
                 (create_repository None "demo" None true None true) tt))
     = Some (POST_user_repos {| CreateParams.name := "demo";
                                CreateParams.description := EmptyString;
                                CreateParams.private := true;
                                CreateParams.auto_init := true |})
  /\ "acme" <> EmptyString
  /\ List.hd_error
       (calls (run forge_without_pulls
                 (create_repository (Some "acme") "demo" (Some "A demo") false
                    (Some two_files) false) tt))
     = Some (POST_org_repos "acme"
               {| CreateParams.name := "demo";
                  CreateParams.description := "A demo";
                  CreateParams.private := false;
                  CreateParams.auto_init := false |})
  /\ create_answer (forge_rejecting_all server_error) tt None
       {| CreateParams.name := "demo";
          CreateParams.description := EmptyString;
          CreateParams.private := true;
          CreateParams.auto_init := true |} = (inr server_error, tt)
  /\ List.length
       (calls (run (forge_rejecting_all server_error)
                 (create_repository None "demo" None true (Some two_files) true)
                 tt)) = 1%nat.
Proof.
  split; [left; reflexivity |]. split.
  { apply (proj1 (create_repository_creation_request unit forge_without_pulls tt
                    None "demo" None true None true)).
    left; reflexivity. }
  split; [discriminate |]. split.
  { apply (proj1 (proj2 (create_repository_creation_request unit
                           forge_without_pulls tt (Some "acme") "demo"
                           (Some "A demo") false (Some two_files) false))
             "acme" eq_refl).
    discriminate. }
  split; [reflexivity |].
  apply (proj1 (proj2 (proj2 (create_repository_creation_request unit
                                (forge_rejecting_all server_error) tt None "demo"
                                None true (Some two_files) true))
                  server_error tt eq_refl)).
Defined.

Ltac pick_stage := cbn [In]; repeat ((left; reflexivity) || right).

(** The block that adds the files stops only between steps, and the blob
    creations count as one step: all of them are issued or none. *)
Lemma add_initial_files_stage {World : Type} (forge : Forge World)
    (name : string) (isPrivate : bool) (repoData : Repo.data)
    (files : list RepositoryFile.data) (w : World) :
  In (CreateRepo
        :: List.map step_of
             (calls (run forge (add_initial_files name isPrivate repoData files) w)))
     (List.tl (create_stages (List.length files))).
Proof.
  unfold add_initial_files, Promise_all, create_stages, create_workflow.
  cbn zeta. cbn [List.tl app].
  cbn [bind octokit_request run].
  match goal with
  | |- context [forge w ?r] => destruct (forge w r) as [[ref | e] w1]
  end; cbn [bind run outcome calls world List.map step_of].
  2:{ pick_stage. }
  rewrite !run_bind.
  match goal with
  | |- context [run forge (request_each ?mk ?data files) w1] =>
      destruct (run_request_each forge mk data files w1)
        as [Hcalls [settled [Hout Hlen]]];
      assert (Hsteps : List.map step_of (List.map mk files)
                       = List.repeat CreateBlob (List.length files))
        by (apply steps_of_batch; reflexivity);
      remember (run forge (request_each mk data files) w1) as batch eqn:Hbatch
  end.
  rewrite Hout. cbn [outcome calls world]. rewrite Hcalls.
  destruct (all_fulfilled settled) as [blobs | e];
    cbn [bind run outcome calls world app].
  2:{ rewrite !app_nil_r. rewrite Hsteps. pick_stage. }
  rewrite app_nil_r.
  match goal with
  | |- context [forge (world batch) ?r] =>
      destruct (forge (world batch) r) as [[tree | e] w2]
  end; cbn [bind run outcome calls world app].
  2:{ rewrite map_app, Hsteps. cbn [List.map step_of]. pick_stage. }
  match goal with
  | |- context [forge w2 ?r] => destruct (forge w2 r) as [[newTree | e] w3]
  end; cbn [bind run outcome calls world app].
  2:{ rewrite map_app, Hsteps. cbn [List.map step_of]. pick_stage. }
  match goal with
  | |- context [forge w3 ?r] => destruct (forge w3 r) as [[commit | e] w4]
  end; cbn [bind run outcome calls world app].
  2:{ rewrite map_app, Hsteps. cbn [List.map step_of]. pick_stage. }
  match goal with
  | |- context [forge w4 ?r] => destruct (forge w4 r) as [[u | e] w5]
  end; cbn [bind run outcome calls world app];
    rewrite map_app, Hsteps; cbn [List.map step_of]; pick_stage.
Qed.

(** X15.  With a non-empty list of n files, the requests of a create-repository
    run are the workflow cut after the creation, the ref fetch, the blob
    creations, the tree fetch, the tree creation, the commit creation or
    the ref update.  The blob creations are all-or-nothing: a run never
    stops after some of them, and the tree is fetched only after all n. *)
Theorem create_repository_stops_between_steps :
  forall (World : Type) (forge : Forge World) (w : World)
         (owner : option string) (name : string) (description : option string)
         (isPrivate : bool) (file : RepositoryFile.data)
         (rest : list RepositoryFile.data) (init : bool),
    let r := run forge (create_repository owner name description isPrivate
                          (Some (file :: rest)) init) w in
    In (List.map step_of (calls r)) (create_stages (S (List.length rest)))
    /\ (count_step CreateBlob (calls r) = 0%nat
        \/ count_step CreateBlob (calls r) = S (List.length rest)).
Proof.
  intros World forge w owner name description isPrivate file rest init r.
  assert (Hstage : In (List.map step_of (calls r))
                      (create_stages (S (List.length rest)))).
  { pose proof (run_create_repository forge owner name description isPrivate
                  (Some (file :: rest)) init w) as Hrun.
    cbn zeta in Hrun. fold r in Hrun.
    change (no_files (Some (file :: rest))) with false in Hrun.
    cbn [andb] in Hrun.
    destruct (create_answer forge w owner _) as [[repoData | e] w1].
    - destruct Hrun as [Hcalls _]. rewrite Hcalls. cbn [List.map].
      rewrite step_of_create_call.
      pose proof (add_initial_files_stage forge name isPrivate repoData
                    (file :: rest) w1) as Hblock.
      cbn [List.length] in Hblock. unfold create_stages in *.
      cbn [List.tl] in Hblock. right. exact Hblock.
    - destruct Hrun as [Hcalls _]. rewrite Hcalls. cbn [List.map].
      rewrite step_of_create_call. left. reflexivity. }
  split; [exact Hstage |].
  assert (Hcount : forall l, count_step CreateBlob l
                             = List.length (List.filter
                                              (fun s => Step_eqb s CreateBlob)
                                              (List.map step_of l))).
  { intros l. unfold count_step. induction l as [| x l IH]; simpl; [reflexivity |].
    destruct (Step_eqb (step_of x) CreateBlob); simpl; now rewrite IH. }
  assert (Hblobs : forall n, List.filter (fun s => Step_eqb s CreateBlob)
                               (List.repeat CreateBlob n)
                             = List.repeat CreateBlob n).
  { induction n as [| n IH]; simpl; [reflexivity | now rewrite IH]. }
  rewrite Hcount. unfold create_stages, create_workflow in Hstage.
  cbn [In] in Hstage.
  repeat match type of Hstage with
         | _ \/ _ => destruct Hstage as [Hstage | Hstage]
         end; try contradiction; rewrite <- Hstage;
    cbn [app List.filter Step_eqb]; rewrite ?filter_app, ?Hblobs;
    cbn [List.filter Step_eqb]; rewrite ?app_nil_r, ?length_app, ?repeat_length;
    cbn [List.length]; auto.
Qed.

(** ** create-repository: how the git objects are linked *)

Lemma run_request_each_answering {A T : Type} (f : forall r : Request, Data r)
    (mk : A -> Request) (data : forall a, Data (mk a) -> T) (l : list A) :
  run (answering f) (request_each mk data l) tt
  = {| outcome := inl (List.map inl (List.map (fun a => data a (f (mk a))) l));
       calls := List.map mk l;
       world := tt |}.
Proof.
  induction l as [| a rest IH]; simpl; [reflexivity |].
  rewrite run_bind, IH. simpl. rewrite app_nil_r. reflexivity.
Qed.

Lemma create_answer_answering (f : forall r : Request, Data r)
    (owner : option string) (params : CreateParams.data) :
  create_answer (answering f) tt owner params
  = (inl (created_by f owner params), tt).
Proof.
  unfold create_answer, created_by.
  destruct owner as [org |]; [destruct (truthy_string org) |]; reflexivity.
Qed.

(** X16.  On a forge that fulfils every request, create-repository with files
    sends, after the creation: the ref fetch of the default branch of the
    created repository; one blob per file with the content in base64; the
    fetch of the tree of the head commit; a tree on top of that tree with
    one entry per file, at the path of the file, mode 100644, pointing to
    the blob created for that file; a commit "Add initial files" of the new
    tree whose only parent is the old head; and the update of the branch to
    that commit.  The repository addressed is the one named in the answer to
    the creation, not the one named in the arguments. *)
Theorem create_repository_links_objects :
  forall (f : forall r : Request, Data r)
         (owner : option string) (name : string) (description : option string)
         (isPrivate : bool) (file : RepositoryFile.data)
         (rest : list RepositoryFile.data) (init : bool),
    let files := file :: rest in
    let params := create_params name description isPrivate init in
    let repoData := created_by f owner params in
    let o := login (Repo.owner repoData) in
    let n := Repo.name repoData in
    let branch := "heads/" ++ Repo.default_branch repoData in
    let head := sha (object (f (GET_git_ref o n branch))) in
    let blobs : list GitObject := List.map (fun x => f (blob_call o n x)) files in
    let base : GitObject := f (GET_git_tree o n head "true") in
    let items := List.map (fun fb => tree_item (fst fb) (snd fb))
                          (List.combine files blobs) in
    let tree : GitObject := f (POST_git_trees o n (sha base) items) in
    let commit : GitObject :=
      f (POST_git_commits o n "Add initial files" (sha tree) [head]) in
    calls (run (answering f)
             (create_repository owner name description isPrivate (Some files)
                init) tt)
    = ([create_call owner params; GET_git_ref o n branch]
         ++ List.map (blob_call o n) files
         ++ [GET_git_tree o n head "true";
             POST_git_trees o n (sha base) items;
             POST_git_commits o n "Add initial files" (sha tree) [head];
             PATCH_git_ref o n branch (sha commit)])%list
    /\ List.map TreeItem.path items = List.map RepositoryFile.path files
    /\ List.map TreeItem.sha items = List.map sha blobs.
Proof.
  intros f owner name description isPrivate file rest init files params repoData
         o n branch head blobs base items tree commit.
  split.
  - pose proof (run_create_repository (answering f) owner name description
                  isPrivate (Some files) init tt) as Hrun.
    cbn zeta in Hrun. fold params in Hrun.
    rewrite create_answer_answering in Hrun. fold repoData in Hrun.
    change (no_files (Some files)) with false in Hrun. cbn [andb] in Hrun.
    unfold files in Hrun at 1. cbv beta iota in Hrun. fold files in Hrun.
    destruct Hrun as [Hcalls _]. rewrite Hcalls. cbn [app]. f_equal.
    unfold add_initial_files, Promise_all. cbn zeta.
    fold o n branch.
    cbn [bind octokit_request run answering outcome calls world]. f_equal.
    fold (answering f). rewrite !run_bind, run_request_each_answering.
    cbn [outcome calls world]. rewrite all_fulfilled_inl.
    cbn [bind octokit_request run answering outcome calls world app].
    rewrite app_nil_r. reflexivity.
  - subst items. split.
    + clear. subst blobs. induction files as [| x l IH]; simpl; [reflexivity |].
      now rewrite IH.
    + clear. subst blobs. induction files as [| x l IH]; simpl; [reflexivity |].
      now rewrite IH.
Qed.

(** ** All tools: errors come from rejections, and nothing is retried *)

Ltac branch_on_data :=
  match goal with
  | |- context [if ?x then _ else _] => destruct x; simpl
  | |- context [match ?x with Some _ => _ | None => _ end] => destruct x; simpl
  end.

Ltac fulfil_with Hok forge :=
  repeat first
    [ match goal with
      | |- context [forge ?w ?r] =>
          let d := fresh "d" in
          let w' := fresh "w" in
          let H := fresh "H" in
          destruct (Hok w r) as [d [w' H]]; rewrite H; simpl
      end
    | branch_on_data ].

(** X18.  On a forge that fulfils every request, no tool returns an envelope
    flagged as an error: a flagged envelope always goes back to a rejected
    request. *)
Theorem fulfilled_requests_give_no_error :
  forall (World : Type) (forge : Forge World) (w : World) (c : ToolCall),
    always_fulfils forge ->
    exists env,
      outcome (run forge (handler c) w) = inl env
      /\ flagged_as_error env = false.
Proof.
  intros World forge w c Hok.
  destruct c as [o r n q | o r s | o r n c | o r n rs | o r n t m | o r n
                 | o r n reason | o name d p fs i | o r c]; cbn [handler].
  - unfold discuss_pr. destruct n; simpl; fulfil_with Hok forge;
      eexists; split; reflexivity.
  - unfold list_prs. simpl. fulfil_with Hok forge. eexists; split; reflexivity.
  - unfold comment_on_pr. simpl. fulfil_with Hok forge.
    eexists; split; reflexivity.
  - unfold request_reviewers. simpl. fulfil_with Hok forge.
    eexists; split; reflexivity.
  - unfold merge_pr. simpl. fulfil_with Hok forge; eexists; split; reflexivity.
  - unfold summarize_pr. simpl. fulfil_with Hok forge.
    eexists; split; reflexivity.
  - unfold close_pr. simpl. fulfil_with Hok forge; eexists; split; reflexivity.
  - pose proof (run_create_repository forge o name d p fs i w) as Hrun.
    cbn zeta in Hrun.
    destruct (create_answer_fulfilled forge w o (create_params name d p i) Hok)
      as [repoData [w1 Hcreate]].
    rewrite Hcreate in Hrun.
    destruct (no_files fs && i)%bool.
    { destruct Hrun as [_ ->]. eexists; split; reflexivity. }
    destruct fs as [[| f rest] |].
    + destruct Hrun as [_ ->]. eexists; split; reflexivity.
    + cbn zeta in Hrun. destruct Hrun as [_ Hout].
      destruct (run_add_initial_files forge name p repoData (f :: rest) w1)
        as [_ [Hreturn Hfulfil]].
      destruct (Hfulfil Hok) as [env Henv]. rewrite Henv in Hout.
      exists env. split; [exact Hout |].
      destruct (Hreturn env Henv) as [Hflag _]. unfold flagged_as_error.
      now rewrite Hflag.
    + destruct Hrun as [_ ->]. eexists; split; reflexivity.
  - unfold delete_repository. destruct c; simpl; fulfil_with Hok forge;
      eexists; split; reflexivity.
Qed.

Lemma fulfilled_requests_give_no_error_witness :
  always_fulfils forge_without_pulls
  /\ exists env,
       outcome (run forge_without_pulls
                  (handler (Create_repository None "demo" None false
                              (Some two_files) true)) tt) = inl env
       /\ flagged_as_error env = false.
Proof.
  split; [apply fulfilling_always_fulfils |].
  apply (fulfilled_requests_give_no_error unit forge_without_pulls tt
           (Create_repository None "demo" None false (Some two_files) true)
           (fulfilling_always_fulfils _)).
Defined.

Lemma prefix_of_length {A : Type} (l full : list A) :
  prefix_of l full -> (List.length l <= List.length full)%nat.
Proof. intros [rest ->]. rewrite length_app. lia. Qed.

Ltac answer_all forge :=
  repeat first
    [ match goal with
      | |- context [forge ?w ?r] =>
          destruct (forge w r) as [[? | ?] ?]; simpl
      end
    | branch_on_data ].

(** X19.  No tool repeats a request or retries: a run issues at most 1 request for
    discuss-pr, list-prs, comment-on-pr and request-reviewers, 2 for
    merge-pr, summarize-pr and delete-repository, 3 for close-pr, and for
    create-repository 1 without files and 6 plus the number of files with
    files, whatever the forge answers. *)
Theorem tool_call_bound :
  forall (World : Type) (forge : Forge World) (w : World) (c : ToolCall),
    (List.length (calls (run forge (handler c) w)) <= call_bound c)%nat.
Proof.
  intros World forge w c.
  destruct c as [o r n q | o r s | o r n c | o r n rs | o r n t m | o r n
                 | o r n reason | o name d p fs i | o r c];
    cbn [handler call_bound].
  - unfold discuss_pr. destruct n; simpl; answer_all forge; simpl; lia.
  - unfold list_prs. simpl. answer_all forge; simpl; lia.
  - unfold comment_on_pr. simpl. answer_all forge; simpl; lia.
  - unfold request_reviewers. simpl. answer_all forge; simpl; lia.
  - unfold merge_pr. simpl. answer_all forge; simpl; lia.
  - unfold summarize_pr. simpl. answer_all forge; simpl; lia.
  - unfold close_pr. simpl. answer_all forge; simpl; lia.
  - pose proof (run_create_repository forge o name d p fs i w) as Hrun.
    cbn zeta in Hrun.
    destruct (create_answer forge w o _) as [[repoData | e] w1].
    + destruct (no_files fs && i)%bool eqn:Hcond.
      { destruct Hrun as [-> _]. destruct fs as [[| f rest] |]; simpl; lia. }
      destruct fs as [[| f rest] |].
      * destruct Hrun as [-> _]. simpl; lia.
      * cbn zeta in Hrun. destruct Hrun as [-> _].
        destruct (run_add_initial_files forge name p repoData (f :: rest) w1)
          as [Hprefix _].
        apply prefix_of_length in Hprefix. rewrite length_map in Hprefix.
        unfold files_workflow in Hprefix. cbn [List.length] in *.
        rewrite length_app, repeat_length in Hprefix. cbn [List.length] in *. lia.
      * destruct Hrun as [-> _]. simpl; lia.
    + destruct Hrun as [-> _]. destruct fs as [[| f rest] |]; simpl; lia.
  - unfold delete_repository. destruct c; simpl; answer_all forge; simpl; lia.
Qed.

(** ** list-prs and summarize-pr *)

(** X20.  list-prs issues the single listing request with the state filter as
    given; a fulfilled listing is rendered under the heading "Open", "Closed"
    or "All PRs for owner/repo:" with one entry per pull request in the order
    the forge returned them, and a rejected one gives the flagged "Error
    fetching PRs" envelope. *)
Theorem list_prs_renders_listing :
  forall (World : Type) (forge : Forge World) (w : World)
         (owner repo : string) (state : StateFilter),
    let r := run forge (list_prs owner repo state) w in
    let title := match state with
                 | open => "Open"
                 | closed => "Closed"
                 | all => "All"
                 end in
    calls r = [GET_pulls owner repo (state_name state)]
    /\ (forall prs w',
          forge w (GET_pulls owner repo (state_name state)) = (inl prs, w') ->
          outcome r
          = inl {| content :=
                     [ text_block (title ++ " PRs for " ++ owner ++ "/" ++ repo
                                     ++ ":" ++ nl ++ nl
                                     ++ JSON_stringify
                                          (JArray (List.map pr_entry prs))) ];
                   isError := None |})
    /\ (forall e w',
          forge w (GET_pulls owner repo (state_name state)) = (inr e, w') ->
          outcome r = inl {| content :=
                               [ text_block ("Error fetching PRs: "
                                               ++ Error.message e) ];
                             isError := Some true |}).
Proof.
  intros World forge w owner repo state. unfold list_prs. simpl.
  destruct (forge w (GET_pulls owner repo (state_name state))) as [[prs | e] w1];
    simpl; (split; [reflexivity |]); split; intros;
    match goal with
    | Heq : (_, _) = (_, _) |- _ => inversion Heq; subst
    end; destruct state; reflexivity.
Qed.

Lemma list_prs_renders_listing_witness :
  forge_without_pulls tt (GET_pulls "o" "r" (state_name closed)) = (inl [], tt)
  /\ text_of (outcome (run forge_without_pulls (list_prs "o" "r" closed) tt))
     = [ "Closed PRs for o/r:" ++ nl ++ nl ++ "[]" ].
Proof.
  split; [reflexivity |].
  rewrite (proj1 (proj2 (list_prs_renders_listing unit forge_without_pulls tt
                           "o" "r" closed)) [] tt eq_refl).
  reflexivity.
Defined.

(** X21.  summarize-pr fetches the pull request and then its files, in this order:
    when the first fetch is rejected the files are not requested, and a
    rejection of either gives the flagged "Error summarizing PR" envelope
    with the message of the error. *)
Theorem summarize_pr_failures :
  forall (World : Type) (forge : Forge World) (w : World)
         (owner repo : string) (prNumber : Z),
    let r := run forge (summarize_pr owner repo prNumber) w in
    let failed e :=
      {| content := [ text_block ("Error summarizing PR: " ++ Error.message e) ];
         isError := Some true |} in
    (forall e w1,
        forge w (GET_pull owner repo prNumber) = (inr e, w1) ->
        calls r = [GET_pull owner repo prNumber] /\ outcome r = inl (failed e))
    /\ (forall pr w1 e w2,
          forge w (GET_pull owner repo prNumber) = (inl pr, w1) ->
          forge w1 (GET_pull_files owner repo prNumber) = (inr e, w2) ->
          calls r = [GET_pull owner repo prNumber;
                     GET_pull_files owner repo prNumber]
          /\ outcome r = inl (failed e)).
Proof.
  intros World forge w owner repo prNumber. unfold summarize_pr. simpl.
  destruct (forge w (GET_pull owner repo prNumber)) as [[pr | e] w1]; simpl.
  - split; [intros ? ? Heq; discriminate Heq |].
    intros pr' w1' e w2 Heq Hfiles. inversion Heq; subst. rewrite Hfiles.
    simpl. split; reflexivity.
  - split; [| intros ? ? ? ? Heq; discriminate Heq].
    intros e' w1' Heq. inversion Heq; subst. split; reflexivity.
Qed.

Lemma summarize_pr_failures_witness :
  forge_rejecting_all not_found tt (GET_pull "o" "r" 7) = (inr not_found, tt)
  /\ calls (run (forge_rejecting_all not_found) (summarize_pr "o" "r" 7) tt)
     = [GET_pull "o" "r" 7]
  /\ rejecting (fail_when is_files server_error) (fixture [] (pr7 "open" None) [])
       tt (GET_pull_files "o" "r" 7) = (inr server_error, tt)
  /\ text_of (outcome (run (rejecting (fail_when is_files server_error)
                              (fixture [] (pr7 "open" None) []))
                         (summarize_pr "o" "r" 7) tt))
     = [ "Error summarizing PR: Server Error" ].
Proof.
  split; [reflexivity |]. split.
  { apply (proj1 (proj1 (summarize_pr_failures unit (forge_rejecting_all not_found)
                           tt "o" "r" 7) not_found tt eq_refl)). }
  split; [reflexivity |].
  rewrite (proj2 (proj2 (summarize_pr_failures unit
                           (rejecting (fail_when is_files server_error)
                              (fixture [] (pr7 "open" None) []))
                           tt "o" "r" 7)
                    (pr7 "open" None) tt server_error tt eq_refl eq_refl)).
  reflexivity.
Defined.



(** ** The resource [pull-requests] *)

(** X23.  The resource handler always returns exactly one content, under the URI
    it was asked for, and issues at most one request.  When the owner or the
    repository is missing from the variables, is an empty array or is the
    empty string, no request is issued and the text reports "Invalid owner
    or repo provided". *)
Theorem pull_requests_resource_validates :
  forall (World : Type) (forge : Forge World) (w : World)
         (href : string) (params : Params),
    let r := run forge (pull_requests_resource href params) w in
    (exists t,
        outcome r = inl {| contents := [ {| ResourceContent.uri := href;
                                            ResourceContent.text := t |} ] |})
    /\ (List.length (calls r) <= 1)%nat
    /\ (missing (first_value (get_param "owner" params)) = true
        \/ missing (first_value (get_param "repo" params)) = true ->
        calls r = []
        /\ outcome r
           = inl {| contents :=
                      [ {| ResourceContent.uri := href;
                           ResourceContent.text :=
                             "Error fetching pull requests: Invalid owner or repo provided" |} ] |}).
Proof.
  intros World forge w href params. unfold pull_requests_resource. cbn zeta.
  destruct (first_value (get_param "owner" params)) as [[| c owner] |];
    destruct (first_value (get_param "repo" params)) as [[| c' repo] |];
    simpl;
    try (split; [eexists; reflexivity |]; split; [lia |]; intros _;
         split; reflexivity).
  destruct (forge w (GET_pulls (String c owner) (String c' repo) "open"))
    as [[prs | e] w1]; simpl;
    (split; [eexists; reflexivity |]); (split; [lia |]);
    intros [H | H]; discriminate H.
Qed.

Lemma pull_requests_resource_validates_witness :
  (missing (first_value (get_param "owner" [("repo", PString "r")])) = true
   \/ missing (first_value (get_param "repo" [("repo", PString "r")])) = true)
  /\ calls (run forge_without_pulls
              (pull_requests_resource "github://o/r/pulls" [("repo", PString "r")])
              tt) = [].
Proof.
  split; [left; reflexivity |].
  apply (proj1 (proj2 (proj2 (pull_requests_resource_validates unit
                                forge_without_pulls tt "github://o/r/pulls"
                                [("repo", PString "r")]))
                  (or_introl eq_refl))).
Defined.

(** X24.  With a non-empty owner and repository (for a variable given as an
    array, its first element), the resource handler lists the open pull
    requests of that repository with one request; the text is the rendering
    of the entries (number, title, url, created_at) in the order of the
    forge, or "Error fetching pull requests: " and the message when the
    request is rejected. *)
Theorem pull_requests_resource_lists_open :
  forall (World : Type) (forge : Forge World) (w : World)
         (href : string) (params : Params) (owner repo : string),
    first_value (get_param "owner" params) = Some owner ->
    first_value (get_param "repo" params) = Some repo ->
    owner <> EmptyString -> repo <> EmptyString ->
    let r := run forge (pull_requests_resource href params) w in
    calls r = [GET_pulls owner repo "open"]
    /\ (forall prs w',
          forge w (GET_pulls owner repo "open") = (inl prs, w') ->
          outcome r
          = inl {| contents :=
                     [ {| ResourceContent.uri := href;
                          ResourceContent.text :=
                            JSON_stringify
                              (JArray (List.map resource_entry prs)) |} ] |})
    /\ (forall e w',
          forge w (GET_pulls owner repo "open") = (inr e, w') ->
          outcome r
          = inl {| contents :=
                     [ {| ResourceContent.uri := href;
                          ResourceContent.text :=
                            "Error fetching pull requests: "
                              ++ Error.message e |} ] |}).
Proof.
  intros World forge w href params owner repo Howner Hrepo Ho Hr.
  unfold pull_requests_resource. cbn zeta. rewrite Howner, Hrepo.
  destruct owner as [| c owner]; [contradiction |].
  destruct repo as [| c' repo]; [contradiction |]. simpl.
  destruct (forge w (GET_pulls (String c owner) (String c' repo) "open"))
    as [[prs | e] w1]; simpl; (split; [reflexivity |]); split; intros;
    match goal with
    | Heq : (_, _) = (_, _) |- _ => inversion Heq; subst
    end; reflexivity.
Qed.

Lemma pull_requests_resource_lists_open_witness :
  first_value (get_param "owner"
                 [("owner", PArray ["o"; "x"]); ("repo", PString "r")]) = Some "o"
  /\ first_value (get_param "repo"
                    [("owner", PArray ["o"; "x"]); ("repo", PString "r")]) = Some "r"
  /\ "o" <> EmptyString /\ "r" <> EmptyString
  /\ calls (run forge_without_pulls
              (pull_requests_resource "github://o/r/pulls"
                 [("owner", PArray ["o"; "x"]); ("repo", PString "r")]) tt)
     = [GET_pulls "o" "r" "open"].
Proof.
  split; [reflexivity | split; [reflexivity |]].
  split; [discriminate | split; [discriminate |]].
  apply (proj1 (pull_requests_resource_lists_open unit forge_without_pulls tt
                  "github://o/r/pulls"
                  [("owner", PArray ["o"; "x"]); ("repo", PString "r")] "o" "r"
                  eq_refl eq_refl ltac:(discriminate) ltac:(discriminate))).
Defined.

(** ** create-repository without files *)

(** X17.  Without files (absent or an empty list) create-repository issues the
    creation only, whatever the README flag; when the creation is fulfilled
    the envelope describes the repository by the name given, the owner and
    URL the forge answered and the visibility, and ends with "Initialized
    with README.md" exactly when the README flag is set. *)
Theorem create_repository_without_files :
  forall (World : Type) (forge : Forge World) (w w1 : World)
         (owner : option string) (name : string) (description : option string)
         (isPrivate : bool) (files : option (list RepositoryFile.data))
         (init : bool) (repoData : Repo.data),
    files = None \/ files = Some ([] : list RepositoryFile.data) ->
    create_answer forge w owner (create_params name description isPrivate init)
    = (inl repoData, w1) ->
    let r := run forge (create_repository owner name description isPrivate
                          files init) w in
    let described :=
      check_mark ++ " Repository created successfully!" ++ nl ++ nl
        ++ "Name: " ++ name ++ nl
        ++ "Owner: " ++ login (Repo.owner repoData) ++ nl
        ++ "Visibility: " ++ (if isPrivate then "Private" else "Public") ++ nl
        ++ "URL: " ++ Repo.html_url repoData in
    List.length (calls r) = 1%nat
    /\ outcome r
       = inl {| content :=
                  [ text_block
                      (if init
                       then described ++ nl ++ nl ++ "Initialized with README.md"
                       else described) ];
                isError := None |}.
Proof.
  intros World forge w w1 owner name description isPrivate files init repoData
         Hfiles Hcreate.
  pose proof (run_create_repository forge owner name description isPrivate
                files init w) as Hrun.
  cbn zeta in Hrun. rewrite Hcreate in Hrun. cbn zeta.
  destruct Hfiles as [-> | ->]; cbn [no_files List.length Nat.eqb andb] in Hrun;
    destruct init; destruct Hrun as [-> ->]; split; reflexivity.
Qed.

Lemma create_repository_without_files_witness :
  ((None : option (list RepositoryFile.data)) = None
   \/ (None : option (list RepositoryFile.data)) = Some [])
  /\ create_answer forge_without_pulls tt None
       (create_params "demo" None true false)
     = (inl (fx_repo (fixture [] (pr7 "open" None) [])), tt)
  /\ text_of (outcome (run forge_without_pulls
                         (create_repository None "demo" None true None false) tt))
     = [ check_mark ++ " Repository created successfully!" ++ nl ++ nl
           ++ "Name: demo" ++ nl ++ "Owner: o" ++ nl ++ "Visibility: Private" ++ nl
           ++ "URL: https://github.com/o/r" ].
Proof.
  split; [left; reflexivity | split; [reflexivity |]].
  rewrite (proj2 (create_repository_without_files unit forge_without_pulls tt tt
                    None "demo" None true None false
                    (fx_repo (fixture [] (pr7 "open" None) []))
                    (or_introl eq_refl) eq_refl)).
  reflexivity.
Defined.
